(** * Reflectly front end: the API client and the submit handler

    A shallow embedding of [frontend/src/api.ts] (the version that exports
    both [analyzeJournalEntry] and [getCopingSuggestion]) and of the
    [handleAnalyze] closure of [frontend/src/App.tsx] (the version that
    keeps the [copingText] state).

    - A JavaScript string is the list of its UTF-16 code units.
    - A [number] is an IEEE 754 binary64 value.
    - Interfaces are records, at the types the source declares.  The value
      [res.json()] resolves to is returned by the source at the declared
      interface type without any check, and the model follows the declared
      types.
    - [async] code runs in a state-and-exception monad over the pending UI
      state and the log of calls made so far.  The network is a parameter:
      it decides what each [fetch] settles to.  One submission is one flow
      of control; other handlers of the component do not run in between. *)

From Stdlib Require Import PrimFloat NArith List String Ascii Bool Lia.
From Stdlib Require Import DecimalString.
Import ListNotations.

Set Implicit Arguments.
Open Scope N_scope.

(* ===================================================================== *)
(** ** JavaScript strings *)
(* ===================================================================== *)

Module JS.

(** A UTF-16 code unit. *)
Definition char16 := N.

Definition jsstring := list char16.

(** A string literal of the source (all of them are ASCII). *)
Definition lit (s : string) : jsstring :=
  map N_of_ascii (list_ascii_of_string s).

Fixpoint jsstring_eqb (a b : jsstring) : bool :=
  match a, b with
  | [], [] => true
  | x :: a', y :: b' => N.eqb x y && jsstring_eqb a' b'
  | _, _ => false
  end.

(** [WhiteSpace] and [LineTerminator] of ECMAScript: the code points that
    [String.prototype.trim] strips.  All of them are in the basic plane. *)
Definition isWhiteSpace (c : char16) : bool :=
  (N.leb 9 c && N.leb c 13)        (* TAB, LF, VT, FF, CR *)
  || N.eqb c 32                    (* SPACE *)
  || N.eqb c 160                   (* NO-BREAK SPACE *)
  || N.eqb c 5760                  (* U+1680 *)
  || (N.leb 8192 c && N.leb c 8202) (* U+2000 .. U+200A *)
  || N.eqb c 8232 || N.eqb c 8233  (* U+2028, U+2029 *)
  || N.eqb c 8239                  (* U+202F *)
  || N.eqb c 8287                  (* U+205F *)
  || N.eqb c 12288                 (* U+3000 *)
  || N.eqb c 65279.                (* U+FEFF *)

Fixpoint trimStart (s : jsstring) : jsstring :=
  match s with
  | [] => []
  | c :: s' => if isWhiteSpace c then trimStart s' else s
  end.

Definition trimEnd (s : jsstring) : jsstring := rev (trimStart (rev s)).

(** [s.trim()] *)
Definition trim (s : jsstring) : jsstring := trimEnd (trimStart s).

(** [ToBoolean] on a string: only the empty string is falsy. *)
Definition truthy (s : jsstring) : bool :=
  match s with [] => false | _ :: _ => true end.

(** [a || b] on strings. *)
Definition or_else (a b : jsstring) : jsstring := if truthy a then a else b.

(** [Number.prototype.toString] on a non-negative integer: its decimal
    digits.  This is what a template literal does to [res.status]. *)
Definition Number_toString (n : N) : jsstring :=
  lit (NilZero.string_of_uint (N.to_uint n)).

(** An [Error] object, as far as the handler looks at it. *)
Record JsError := { name : jsstring; message : jsstring }.

(** [new Error(msg)] *)
Definition Error (msg : jsstring) : JsError :=
  {| name := lit "Error"; message := msg |}.

(** How a call, or the promise it returned once awaited, completes. *)
Inductive completion (A : Type) : Type :=
| Normal (a : A)
| Throw (e : JsError).
Arguments Throw {A} e.

End JS.
Import JS.

Infix "+++" := (@app char16) (right associativity, at level 60).
Infix "|||" := or_else (at level 50, left associativity).

(* ===================================================================== *)
(** ** JSON.stringify on the values the client sends *)
(* ===================================================================== *)

Module JSON.

(** The values handed to [JSON.stringify]: objects whose leaves are strings. *)
#[warnings="-register-all"]
Inductive value :=
| Str (s : jsstring)
| Obj (props : list (jsstring * value)).

Definition hexDigit (d : N) : char16 :=
  if N.ltb d 10 then 48 + d else 87 + d.   (* '0'.., 'a'.. *)

(** [UnicodeEscape]: backslash, u and four lowercase hexadecimal digits. *)
Definition UnicodeEscape (c : char16) : jsstring :=
  [92; 117; hexDigit (N.modulo (N.div c 4096) 16); hexDigit (N.modulo (N.div c 256) 16);
   hexDigit (N.modulo (N.div c 16) 16); hexDigit (N.modulo c 16)].

Definition isLeadingSurrogate (c : char16) : bool := N.leb 55296 c && N.leb c 56319.
Definition isTrailingSurrogate (c : char16) : bool := N.leb 56320 c && N.leb c 57343.

(** One code unit that is not half of a surrogate pair. *)
Definition quoteUnit (c : char16) : jsstring :=
  if N.eqb c 8 then [92; 98]            (* \b *)
  else if N.eqb c 9 then [92; 116]      (* \t *)
  else if N.eqb c 10 then [92; 110]     (* \n *)
  else if N.eqb c 12 then [92; 102]     (* \f *)
  else if N.eqb c 13 then [92; 114]     (* \r *)
  else if N.eqb c 34 then [92; 34]      (* \ and the double quote *)
  else if N.eqb c 92 then [92; 92]      (* \\ *)
  else if N.ltb c 32 || isLeadingSurrogate c || isTrailingSurrogate c
       then UnicodeEscape c
  else [c].

Fixpoint quoteUnits (s : jsstring) : jsstring :=
  match s with
  | [] => []
  | c :: rest =>
      match rest with
      | d :: rest' =>
          if isLeadingSurrogate c && isTrailingSurrogate d
          then c :: d :: quoteUnits rest'
          else quoteUnit c ++ quoteUnits rest
      | [] => quoteUnit c
      end
  end.

(** [QuoteJSONString] *)
Definition QuoteJSONString (s : jsstring) : jsstring :=
  [34] ++ quoteUnits s ++ [34].

Fixpoint joinComma (parts : list jsstring) : jsstring :=
  match parts with
  | [] => []
  | [p] => p
  | p :: ps => p ++ [44] ++ joinComma ps
  end.

(** [JSON.stringify(v)] with no replacer and no indentation. *)
Fixpoint stringify (v : value) : jsstring :=
  match v with
  | Str s => QuoteJSONString s
  | Obj props =>
      [123]
      ++ joinComma (map (fun kv => QuoteJSONString (fst kv) ++ [58] ++ stringify (snd kv)) props)
      ++ [125]
  end.

End JSON.

(* ===================================================================== *)
(** ** Data model (api.ts) *)
(* ===================================================================== *)

Definition number := float.

(** An element of [sentence_breakdown]. *)
Record SentenceBreakdown := {
  sentence : jsstring;
  emotion : jsstring;
  sb_stress_level : jsstring;
  sb_stress_score : number;
  sb_scores : list (jsstring * number)
}.

(** [interface AnalyzeResponse].  A [Record<string, number>] is the list of
    its properties in insertion order. *)
Record AnalyzeResponse := {
  primary_emotion : jsstring;
  stress_level : jsstring;
  stress_score : number;
  scores : list (jsstring * number);
  coping_strategy : jsstring;
  sentence_breakdown : list SentenceBreakdown
}.

(** [interface CopingRequest] *)
Record CopingRequest := {
  journal : jsstring;
  cr_primary_emotion : jsstring;
  cr_stress_level : jsstring
}.

(** [{ coping_text: string }], what [getCopingSuggestion] resolves to. *)
Record CopingResponse := { coping_text : jsstring }.

(** The object literal [{ text }]. *)
Definition AnalyzeRequest_value (text : jsstring) : JSON.value :=
  JSON.Obj [(lit "text", JSON.Str text)].

(** A [CopingRequest] object: its properties in the order the literal in
    [handleAnalyze] creates them. *)
Definition CopingRequest_value (body : CopingRequest) : JSON.value :=
  JSON.Obj [(lit "journal", JSON.Str (journal body));
            (lit "primary_emotion", JSON.Str (cr_primary_emotion body));
            (lit "stress_level", JSON.Str (cr_stress_level body))].

(* ===================================================================== *)
(** ** The network: fetch and Response *)
(* ===================================================================== *)

(** The arguments of one [fetch(url, init)] call. *)
Record Request := {
  url : jsstring;
  method : jsstring;
  headers : list (jsstring * jsstring);
  body : jsstring
}.

(** A [Response], as far as the client looks at it.  [T] is the type at which
    the caller takes [res.json()].  Reading the body can fail, so [res.text()]
    and [res.json()] are completions. *)
Record Response (T : Type) := {
  status : N;
  statusText : jsstring;
  res_text : completion jsstring;
  res_json : completion T
}.

(** [res.ok]: the status is in the range 200-299. *)
Definition ok {T} (res : Response T) : bool :=
  N.leb 200 (status res) && N.leb (status res) 299.

(** What the outside world does with a request: [fetch] rejects (the request
    never got an answer) or resolves to a response, whatever its status.
    There is one route for each type of answer the client expects. *)
Record Network := {
  predict_route : Request -> completion (Response AnalyzeResponse);
  coping_route : Request -> completion (Response CopingResponse)
}.

(* ===================================================================== *)
(** ** UI state (App.tsx) *)
(* ===================================================================== *)

(** [type Page = "home" | "about"] *)
Inductive Page := home | about.

(** The six [useState] cells of [App], with [null] as [None]. *)
Record UIState := {
  text : jsstring;
  loading : bool;
  error : option jsstring;
  result : option AnalyzeResponse;
  page : Page;
  copingText : jsstring
}.

(** The state of a freshly mounted [App]. *)
Definition initialState : UIState :=
  {| text := lit ""; loading := false; error := None; result := None;
     page := home; copingText := lit "" |}.

(** What a run of a handler does that can be seen from outside it: calls of
    state setters, of [fetch] and of [console.error], in order. *)
Inductive Event :=
| call_setText (v : jsstring)
| call_setLoading (v : bool)
| call_setError (v : option jsstring)
| call_setResult (v : option AnalyzeResponse)
| call_setPage (v : Page)
| call_setCopingText (v : jsstring)
| call_fetch (req : Request)
| call_console_error (err : JsError).

(** The effect of one event on the state. *)
Definition apply_event (s : UIState) (e : Event) : UIState :=
  match e with
  | call_setText v =>
      {| text := v; loading := loading s; error := error s; result := result s;
         page := page s; copingText := copingText s |}
  | call_setLoading v =>
      {| text := text s; loading := v; error := error s; result := result s;
         page := page s; copingText := copingText s |}
  | call_setError v =>
      {| text := text s; loading := loading s; error := v; result := result s;
         page := page s; copingText := copingText s |}
  | call_setResult v =>
      {| text := text s; loading := loading s; error := error s; result := v;
         page := page s; copingText := copingText s |}
  | call_setPage v =>
      {| text := text s; loading := loading s; error := error s; result := result s;
         page := v; copingText := copingText s |}
  | call_setCopingText v =>
      {| text := text s; loading := loading s; error := error s; result := result s;
         page := page s; copingText := v |}
  | call_fetch _ => s
  | call_console_error _ => s
  end.

(** The state after a sequence of events. *)
Definition replay (s : UIState) (evs : list Event) : UIState :=
  fold_left apply_event evs s.

(** The requests among the events, in order. *)
Fixpoint fetches (evs : list Event) : list Request :=
  match evs with
  | [] => []
  | call_fetch req :: evs' => req :: fetches evs'
  | _ :: evs' => fetches evs'
  end.

(* ===================================================================== *)
(** ** The monad of handlers *)
(* ===================================================================== *)

(** The pending UI state and the events so far, oldest first. *)
Record World := { ui : UIState; trace : list Event }.

Definition M (A : Type) : Type := Network -> World -> completion A * World.

Definition ret {A} (a : A) : M A := fun _ w => (Normal a, w).

Definition bind {A B} (m : M A) (k : A -> M B) : M B :=
  fun net w =>
    match m net w with
    | (Normal a, w') => k a net w'
    | (Throw e, w') => (Throw e, w')
    end.

Notation "x <- m ;; k" := (bind m (fun x => k))
  (at level 61, m at next level, right associativity).
Notation "m ;; k" := (bind m (fun _ => k))
  (at level 61, right associativity).

(** [throw e] *)
Definition throw {A} (e : JsError) : M A := fun _ w => (Throw e, w).

(** [await p] on a promise that settles as [c]. *)
Definition await {A} (c : completion A) : M A := fun _ w => (c, w).

(** [try { body } catch (err) { handler } finally { fin }] *)
Definition try_catch_finally (body : M unit) (handler : JsError -> M unit)
    (fin : M unit) : M unit :=
  fun net w =>
    let '(c, w1) :=
      match body net w with
      | (Normal a, w') => (Normal a, w')
      | (Throw err, w') => handler err net w'
      end in
    match fin net w1 with
    | (Normal _, w2) => (c, w2)
    | (Throw e, w2) => (Throw e, w2)
    end.

(** An event happens: it is logged and the state follows. *)
Definition emit (e : Event) : M unit :=
  fun _ w => (Normal tt, {| ui := apply_event (ui w) e; trace := trace w ++ [e] |}).

Definition setText v := emit (call_setText v).
Definition setLoading v := emit (call_setLoading v).
Definition setError v := emit (call_setError v).
Definition setResult v := emit (call_setResult v).
Definition setPage v := emit (call_setPage v).
Definition setCopingText v := emit (call_setCopingText v).
Definition console_error err := emit (call_console_error err).

(** [init] of a [fetch] call. *)
Record RequestInit := {
  init_method : jsstring;
  init_headers : list (jsstring * jsstring);
  init_body : jsstring
}.

(** [fetch(input, init)], answered by [route]. *)
Definition fetch {T} (route : Network -> Request -> completion (Response T))
    (input : jsstring) (init : RequestInit) : M (Response T) :=
  let req := {| url := input; method := init_method init;
                headers := init_headers init; body := init_body init |} in
  emit (call_fetch req) ;;
  fun net w => (route net req, w).

(* ===================================================================== *)
(** ** The API client (api.ts) *)
(* ===================================================================== *)

Definition API_BASE_URL : jsstring := lit "http://127.0.0.1:8000".

Definition analyzeJournalEntry (text : jsstring) : M AnalyzeResponse :=
  res <- fetch predict_route (API_BASE_URL +++ lit "/predict")
           {| init_method := lit "POST";
              init_headers := [(lit "Content-Type", lit "application/json")];
              init_body := JSON.stringify (AnalyzeRequest_value text) |} ;;
  if negb (ok res) then
    errorText <- await (res_text res) ;;
    throw (Error (lit "API error " +++ Number_toString (status res) +++ lit ": "
                  +++ (errorText ||| statusText res)))
  else
    await (res_json res).

Definition getCopingSuggestion (body : CopingRequest) : M CopingResponse :=
  res <- fetch coping_route (API_BASE_URL +++ lit "/coping")
           {| init_method := lit "POST";
              init_headers := [(lit "Content-Type", lit "application/json")];
              init_body := JSON.stringify (CopingRequest_value body) |} ;;
  if negb (ok res) then
    throw (Error (lit "Failed to get coping suggestions"))
  else
    await (res_json res).

(* ===================================================================== *)
(** ** The view (App.tsx) *)
(* ===================================================================== *)

(** [handleAnalyze], a closure over the [text] of the render it belongs to. *)
Definition handleAnalyze (text : jsstring) : M unit :=
  setError None ;;
  setResult None ;;
  setCopingText (lit "") ;;
  if negb (truthy (trim text)) then
    setError (Some (lit "Please write a short journal entry first.")) ;;
    ret tt
  else
    try_catch_finally
      (setLoading true ;;
       data <- analyzeJournalEntry text ;;
       setResult (Some data) ;;
       coping <- getCopingSuggestion
                   {| journal := text;
                      cr_primary_emotion := primary_emotion data;
                      cr_stress_level := stress_level data |} ;;
       setCopingText (coping_text coping))
      (fun err =>
         console_error err ;;
         setError (Some (message err ||| lit "Something went wrong. Please try again.")))
      (setLoading false).

(** [onChange] of the textarea and [onClick] of the two navigation buttons. *)
Definition onChange (value : jsstring) : M unit := setText value.
Definition onClickHome : M unit := setPage home.
Definition onClickAbout : M unit := setPage about.

(** One press of the Analyze button in state [s]: the handler of the current
    render runs to completion.  The result is the final world. *)
Definition submit (net : Network) (s : UIState) : World :=
  snd (handleAnalyze (text s) net {| ui := s; trace := [] |}).

(* ===================================================================== *)
(** ** Terms of the statements *)
(* ===================================================================== *)

Definition predict_url : jsstring := API_BASE_URL +++ lit "/predict".
Definition coping_url : jsstring := API_BASE_URL +++ lit "/coping".

(** A [POST] with a JSON body. *)
Definition post_json (u : jsstring) (v : JSON.value) : Request :=
  {| url := u; method := lit "POST";
     headers := [(lit "Content-Type", lit "application/json")];
     body := JSON.stringify v |}.

(** The POST to /predict whose body is [{text}]. *)
Definition predict_request (text : jsstring) : Request :=
  post_json predict_url (JSON.Obj [(lit "text", JSON.Str text)]).

(** The POST to /coping whose body has the three given fields. *)
Definition coping_request (journal primary_emotion stress_level : jsstring) : Request :=
  post_json coping_url
    (JSON.Obj [(lit "journal", JSON.Str journal);
               (lit "primary_emotion", JSON.Str primary_emotion);
               (lit "stress_level", JSON.Str stress_level)]).

(** How many of the requests go to [u]. *)
Definition count_url (u : jsstring) (reqs : list Request) : nat :=
  List.length (filter (fun r => jsstring_eqb (url r) u) reqs).

Definition validation_message : jsstring :=
  lit "Please write a short journal entry first.".

Definition fallback_message : jsstring :=
  lit "Something went wrong. Please try again.".

Definition coping_failure_message : jsstring :=
  lit "Failed to get coping suggestions".

(** Whether a decimal digit occurs in a string. *)
Definition has_digit (s : jsstring) : bool :=
  existsb (fun c => N.leb 48 c && N.leb c 57) s.

(** The flag is up at every call of [fetch] in the trace. *)
Fixpoint loading_at_fetches (s : UIState) (evs : list Event) : bool :=
  match evs with
  | [] => true
  | call_fetch req :: evs' => loading s && loading_at_fetches s evs'
  | e :: evs' => loading_at_fetches (apply_event s e) evs'
  end.

(** What [analyzeJournalEntry] and [getCopingSuggestion] complete with. *)
Definition analyze_outcome (net : Network) (text : jsstring) : completion AnalyzeResponse :=
  fst (analyzeJournalEntry text net {| ui := initialState; trace := [] |}).

Definition coping_outcome (net : Network) (body : CopingRequest) : completion CopingResponse :=
  fst (getCopingSuggestion body net {| ui := initialState; trace := [] |}).

(** *** Runs *)


(** The world after some more events. *)
Definition log (w : World) (evs : list Event) : World :=
  {| ui := replay (ui w) evs; trace := trace w ++ evs |}.

(** The body a [CopingRequest] is built with in [handleAnalyze]. *)
Definition coping_body (t : jsstring) (data : AnalyzeResponse) : CopingRequest :=
  {| journal := t; cr_primary_emotion := primary_emotion data;
     cr_stress_level := stress_level data |}.

(** The events of one submission, path by path. *)
Definition submit_events (net : Network) (t : jsstring) : list Event :=
  [call_setError None; call_setResult None; call_setCopingText (lit "")] ++
  if truthy (trim t) then
    [call_setLoading true; call_fetch (predict_request t)] ++
    match analyze_outcome net t with
    | Throw err =>
        [call_console_error err;
         call_setError (Some (message err ||| fallback_message))]
    | Normal data =>
        [call_setResult (Some data);
         call_fetch (coping_request t (primary_emotion data) (stress_level data))] ++
        match coping_outcome net (coping_body t data) with
        | Throw err =>
            [call_console_error err;
             call_setError (Some (message err ||| fallback_message))]
        | Normal coping => [call_setCopingText (coping_text coping)]
        end
    end ++
    [call_setLoading false]
  else
    [call_setError (Some validation_message)].


(** *** Sample data *)

Module Samples.

Definition respond {T} (st : N) (stText : jsstring) (txt : jsstring)
    (j : completion T) : Response T :=
  {| status := st; statusText := stText; res_text := Normal txt; res_json := j |}.

Definition SyntaxError : JsError :=
  {| name := lit "SyntaxError"; message := lit "Unexpected token I in JSON at position 0" |}.

Definition data : AnalyzeResponse :=
  {| primary_emotion := lit "anxiety"; stress_level := lit "high";
     stress_score := 0.75%float;
     scores := [(lit "anxiety", 0.75%float); (lit "joy", 0.25%float)];
     coping_strategy := lit "Take a short walk.";
     sentence_breakdown :=
       [{| sentence := lit "I feel overwhelmed today"; emotion := lit "anxiety";
           sb_stress_level := lit "high"; sb_stress_score := 0.75%float;
           sb_scores := [(lit "anxiety", 0.75%float)] |}] |}.

Definition coping : CopingResponse :=
  {| coping_text := lit "Try a short breathing exercise." |}.

Definition predict_200 : Response AnalyzeResponse :=
  respond 200 (lit "OK") (lit "...") (Normal data).

Definition predict_500 : Response AnalyzeResponse :=
  respond 500 (lit "Internal Server Error") (lit "Internal Server Error") (Throw SyntaxError).


Definition coping_200 : Response CopingResponse :=
  respond 200 (lit "OK") (lit "...") (Normal coping).

Definition coping_503 : Response CopingResponse :=
  respond 503 (lit "Service Unavailable") (lit "upstream down") (Throw SyntaxError).

Definition coping_404 : Response CopingResponse :=
  respond 404 (lit "Not Found") (lit "Failed") (Throw SyntaxError).

(** A backend that answers both calls. *)
Definition net_ok : Network :=
  {| predict_route := fun _ => Normal predict_200;
     coping_route := fun _ => Normal coping_200 |}.

(** /predict answers 500. *)
Definition net_predict_500 : Network :=
  {| predict_route := fun _ => Normal predict_500;
     coping_route := fun _ => Normal coping_200 |}.


(** /predict answers, /coping answers 503. *)
Definition net_coping_503 : Network :=
  {| predict_route := fun _ => Normal predict_200;
     coping_route := fun _ => Normal coping_503 |}.

(** /predict answers, /coping answers 404. *)
Definition net_coping_404 : Network :=
  {| predict_route := fun _ => Normal predict_200;
     coping_route := fun _ => Normal coping_404 |}.

(** A state left by an earlier submission, with a new entry typed in; the
    entry has white space at both ends. *)
Definition typed : UIState :=
  {| text := lit "  I feel overwhelmed today "; loading := false;
     error := Some (lit "API error 500: Internal Server Error");
     result := None; page := about; copingText := lit "old advice" |}.

(** The entry is a space, a tab, a no-break space and a line feed. *)
Definition blank : UIState :=
  {| text := [32; 9; 160; 10]; loading := false; error := None;
     result := Some data; page := home; copingText := lit "old advice" |}.

End Samples.

(* ===================================================================== *)
(** ** Further terms: handlers, faults *)
(* ===================================================================== *)

(** A handler run to completion from state [s]: the state it leaves. *)
Definition run_handler (h : M unit) (net : Network) (s : UIState) : UIState :=
  ui (snd (h net {| ui := s; trace := [] |})).

(** The errors handed to [console.error], in order. *)
Fixpoint console_errors (evs : list Event) : list JsError :=
  match evs with
  | [] => []
  | call_console_error err :: evs' => err :: console_errors evs'
  | _ :: evs' => console_errors evs'
  end.

(** The ways the /predict call fails with an error of the runtime, [e]:
    [fetch] rejects, or the answer is not 2xx and its body cannot be read,
    or the answer is 2xx and its body does not parse. *)
Definition predict_fails_with (net : Network) (t : jsstring) (e : JsError) : Prop :=
  predict_route net (predict_request t) = Throw e \/
  (exists res, predict_route net (predict_request t) = Normal res /\
               ok res = false /\ res_text res = Throw e) \/
  (exists res, predict_route net (predict_request t) = Normal res /\
               ok res = true /\ res_json res = Throw e).

(** The ways the /coping call fails with an error of the runtime, [e]. *)
Definition coping_fails_with (net : Network) (req : Request) (e : JsError) : Prop :=
  coping_route net req = Throw e \/
  (exists res, coping_route net req = Normal res /\
               ok res = true /\ res_json res = Throw e).

(** *** Faulty networks *)

Module Faults.

Definition TypeError_fetch : JsError :=
  {| name := lit "TypeError"; message := lit "Failed to fetch" |}.

(** An error that carries no message. *)
Definition AbortError : JsError :=
  {| name := lit "AbortError"; message := lit "" |}.

(** Nothing answers. *)
Definition net_offline : Network :=
  {| predict_route := fun _ => Throw TypeError_fetch;
     coping_route := fun _ => Throw TypeError_fetch |}.

(** The request to /predict is cut off, with an error that has no message. *)
Definition net_aborted : Network :=
  {| predict_route := fun _ => Throw AbortError;
     coping_route := fun _ => Throw AbortError |}.

(** /predict answers 200 with a body that is not JSON. *)
Definition net_predict_garbled : Network :=
  {| predict_route := fun _ =>
       Normal (Samples.respond 200 (lit "OK") (lit "<html>") (Throw Samples.SyntaxError));
     coping_route := fun _ => Normal Samples.coping_200 |}.

(** /predict answers; the request to /coping gets no answer. *)
Definition net_coping_offline : Network :=
  {| predict_route := fun _ => Normal Samples.predict_200;
     coping_route := fun _ => Throw TypeError_fetch |}.

End Faults.

(* ===================================================================== *)
(** ** Reading a quoted JSON string back *)
(* ===================================================================== *)

(** The inverse of [JSON.QuoteJSONString], used to show that a request body
    determines the strings it was made from. *)
Module Unquote.

Definition hexValue (h : char16) : option N :=
  if N.leb 48 h && N.leb h 57 then Some (h - 48)
  else if N.leb 97 h && N.leb h 102 then Some (h - 87)
  else None.

(** The code unit a two-character escape stands for. *)
Definition unescape (e : char16) : option char16 :=
  if N.eqb e 98 then Some 8
  else if N.eqb e 116 then Some 9
  else if N.eqb e 110 then Some 10
  else if N.eqb e 102 then Some 12
  else if N.eqb e 114 then Some 13
  else if N.eqb e 34 then Some 34
  else if N.eqb e 92 then Some 92
  else None.

Definition hex4 (h1 h2 h3 h4 : char16) : option char16 :=
  match hexValue h1, hexValue h2, hexValue h3, hexValue h4 with
  | Some a, Some b, Some c, Some d => Some (4096 * a + 256 * b + 16 * c + d)
  | _, _, _, _ => None
  end.

Definition push (c : option char16) (r : option (jsstring * jsstring))
    : option (jsstring * jsstring) :=
  match c, r with
  | Some c, Some (s, rest) => Some (c :: s, rest)
  | _, _ => None
  end.

(** Reads the inside of a quoted string up to the closing quote: the string
    and what follows the quote. *)
Fixpoint readString (s : jsstring) : option (jsstring * jsstring) :=
  match s with
  | [] => None
  | c :: r =>
      if N.eqb c 34 then Some ([], r)
      else if N.eqb c 92 then
        match r with
        | [] => None
        | e :: r1 =>
            if N.eqb e 117 then
              match r1 with
              | h1 :: h2 :: h3 :: h4 :: r2 => push (hex4 h1 h2 h3 h4) (readString r2)
              | _ => None
              end
            else push (unescape e) (readString r1)
        end
      else push (Some c) (readString r)
  end.

End Unquote.

(* ===================================================================== *)
(** ** The view (App.tsx): what [App] returns *)
(* ===================================================================== *)

(** The props the JSX of [App] uses. *)
Inductive Attr :=
| attr_className (v : jsstring)
| attr_onClick (handler : M unit)
| attr_onChange (handler : jsstring -> M unit)   (* gets [e.target.value] *)
| attr_value (v : jsstring)
| attr_placeholder (v : jsstring)
| attr_rows (v : N)
| attr_disabled (v : bool).

(** A React element tree: host elements and text. *)
#[warnings="-register-all"]
Inductive Node :=
| Text (s : jsstring)
| Element (tag : jsstring) (attrs : list Attr) (children : list Node).

Definition tag (name : string) (attrs : list Attr) (children : list Node) : Node :=
  Element (lit name) attrs children.

Definition cls (c : string) : Attr := attr_className (lit c).

Definition txt (s : string) : Node := Text (lit s).

(** [{cond && (...)}]: the elements when [cond] is truthy, and nothing when
    it is [false], [null] or the empty string, which React does not render. *)
Definition when (cond : bool) (nodes : list Node) : list Node :=
  if cond then nodes else [].

(** [page === p] *)
Definition Page_eqb (p q : Page) : bool :=
  match p, q with
  | home, home => true
  | about, about => true
  | _, _ => false
  end.

(** The tree [App] returns in state [s].  [stringify2] stands for
    [JSON.stringify(result, null, 2)], which prints numbers.  Text children
    are as JSX reads them: lines trimmed and joined by one space, entities
    decoded. *)
Definition App (stringify2 : AnalyzeResponse -> jsstring) (s : UIState) : Node :=
  tag "div" [cls "app"]
    [ (* NAVBAR *)
      tag "nav" [cls "navbar"]
        [ tag "div" [cls "nav-inner"]
            [ tag "div" [cls "nav-left"]
                [ tag "div" [cls "logo-circle"] [Text [9788]];
                  tag "div" [cls "brand"]
                    [ tag "span" [cls "brand-name"] [txt "Reflectly"] ] ];
              tag "div" [cls "nav-links"]
                [ tag "button"
                    [ attr_className
                        (lit "nav-link " +++
                         (if Page_eqb (page s) home then lit "nav-link-active" else lit ""));
                      attr_onClick onClickHome ]
                    [txt "Home"];
                  tag "button"
                    [ attr_className
                        (lit "nav-link " +++
                         (if Page_eqb (page s) about then lit "nav-link-active" else lit ""));
                      attr_onClick onClickAbout ]
                    [txt "About"] ] ] ];
      (* MAIN CONTENT *)
      tag "div" [cls "container"]
        (when (Page_eqb (page s) home)
           [ tag "header" [cls "hero"]
               [ tag "h1" []
                   [ txt "Check In With Your";
                     tag "span" [cls "highlight"] [txt " Stress & Emotions"] ];
                 tag "p" [cls "subtitle"]
                   [ Text (lit "Take a moment to share what" +++ [8217] +++
                           lit "s on your mind. Reflectly will gently check in on your stress and emotions using our fine-tuned model.") ] ];
             tag "main" [cls "content"]
               [ tag "section" [cls "card"]
                   ([ tag "div" [cls "card-header-row"]
                        [ tag "h2" [] [txt "Analyze Your Journal Entry"];
                          tag "span" [cls "badge"] [txt "Private"] ];
                      tag "p" [cls "card-subtitle"]
                        [txt "Please type your journal entry below!"];
                      tag "textarea"
                        [ cls "journal-input";
                          attr_placeholder (lit "Write about your day, how you're feeling, or anything on your mind...");
                          attr_value (text s);
                          attr_onChange onChange;
                          attr_rows 8 ]
                        [] ]
                    ++ match error s with
                       | Some e => when (truthy e) [tag "div" [cls "error"] [Text e]]
                       | None => []
                       end
                    ++ [ tag "button"
                           [ cls "analyze-button";
                             attr_onClick (handleAnalyze (text s));
                             attr_disabled (loading s) ]
                           [ Text (if loading s then lit "Analyzing..."
                                   else lit "Analyze Emotions") ] ]
                    ++ match result s with
                       | Some r =>
                           [ tag "div" [cls "results"]
                               ([ tag "h3" [] [txt "Results"];
                                  tag "div" [cls "result-row"]
                                    [ tag "span" [cls "label"] [txt "Primary Emotion"];
                                      tag "span" [cls "value"] [Text (primary_emotion r)] ];
                                  tag "div" [cls "result-row"]
                                    [ tag "span" [cls "label"] [txt "Stress Level"];
                                      tag "span" [cls "value"] [Text (stress_level r)] ];
                                  tag "details" [cls "raw-json"]
                                    [ tag "summary" [] [txt "View raw model output"];
                                      tag "pre" [] [Text (stringify2 r)] ] ]
                                ++ when (truthy (copingText s))
                                     [ tag "div" [cls "coping-box"]
                                         [ tag "h3" [] [txt "Coping Suggestions:"];
                                           tag "p" [] [Text (copingText s)] ] ]) ]
                       | None => []
                       end) ] ]
         ++ when (Page_eqb (page s) about)
              [ tag "main" [cls "about"]
                  [ tag "h1" [] [txt "About Reflectly"];
                    tag "p" []
                      [ Text (lit "Reflectly is a small project built to help you slow down for a moment and understand what you" +++ [8217] +++
                              lit "re feeling. When you write a journal entry, it looks for patterns in your stress and emotions using our fine-tuned DistilBERT model.") ];
                    tag "p" []
                      [ Text (lit "It" +++ [8217] +++
                              lit "s not here to replace therapy or professional support. Think of it more as a gentle companion, something that gives you a little clarity when life feels a bit overwhelming or uncertain.") ];
                    tag "p" [cls "about-note"]
                      [ Text ([9888; 65039] +++ lit " ");
                        tag "strong" [] [txt "Disclaimer:"];
                        txt " Reflectly is for personal insight only. It is";
                        tag "strong" [] [txt " not"];
                        txt " intended for diagnosis, crisis support, or medical care." ] ] ]
         ++ [ tag "footer" [cls "footer"]
                [ Text (lit "Built by Srewashi " +++ [183] +++
                        lit " Powered by FastAPI & DistilBERT") ] ]) ].

(** *** Looking into a tree *)

Fixpoint class_of (attrs : list Attr) : option jsstring :=
  match attrs with
  | [] => None
  | attr_className v :: _ => Some v
  | _ :: attrs' => class_of attrs'
  end.

Fixpoint disabled_of (attrs : list Attr) : bool :=
  match attrs with
  | [] => false
  | attr_disabled v :: _ => v
  | _ :: attrs' => disabled_of attrs'
  end.

Fixpoint value_of (attrs : list Attr) : option jsstring :=
  match attrs with
  | [] => None
  | attr_value v :: _ => Some v
  | _ :: attrs' => value_of attrs'
  end.

Fixpoint onClick_of (attrs : list Attr) : option (M unit) :=
  match attrs with
  | [] => None
  | attr_onClick h :: _ => Some h
  | _ :: attrs' => onClick_of attrs'
  end.

Fixpoint onChange_of (attrs : list Attr) : option (jsstring -> M unit) :=
  match attrs with
  | [] => None
  | attr_onChange h :: _ => Some h
  | _ :: attrs' => onChange_of attrs'
  end.

Definition attrs_of (n : Node) : list Attr :=
  match n with Text _ => [] | Element _ attrs _ => attrs end.

Definition has_class (c : jsstring) (attrs : list Attr) : bool :=
  match class_of attrs with
  | Some v => jsstring_eqb v c
  | None => false
  end.

(** The elements of class exactly [c], in document order. *)
Fixpoint byClass (c : jsstring) (n : Node) : list Node :=
  match n with
  | Text _ => []
  | Element _ attrs children =>
      (if has_class c attrs then [n] else []) ++ flat_map (byClass c) children
  end.

(** The elements with tag [t], in document order. *)
Fixpoint byTag (t : jsstring) (n : Node) : list Node :=
  match n with
  | Text _ => []
  | Element name _ children =>
      (if jsstring_eqb name t then [n] else []) ++ flat_map (byTag t) children
  end.

(** [node.textContent] *)
Fixpoint textContent (n : Node) : jsstring :=
  match n with
  | Text s => s
  | Element _ _ children => flat_map textContent children
  end.

(** [P] holds of the state at every call of [fetch] in the trace. *)
Fixpoint holds_at_fetches (P : UIState -> bool) (s : UIState) (evs : list Event) : bool :=
  match evs with
  | [] => true
  | call_fetch req :: evs' => P s && holds_at_fetches P s evs'
  | e :: evs' => holds_at_fetches P (apply_event s e) evs'
  end.

(** The text of each element of class [c] on screen. *)
Definition shown (c : string) (view : Node) : list jsstring :=
  map textContent (byClass (lit c) view).

(** *** Sample views *)

Module ViewSamples.

(** A stand-in for the pretty printer of the raw output. *)
Definition raw (r : AnalyzeResponse) : jsstring :=
  lit "{ primary_emotion: " +++ primary_emotion r +++ lit " }".

(** Another one, which prints nothing. *)
Definition silent (r : AnalyzeResponse) : jsstring := lit "".

(** [Samples.typed], seen from the home page. *)
Definition typed_home : UIState := apply_event Samples.typed (call_setPage home).

End ViewSamples.

(* ===================================================================== *)
(** ** The earlier version of the component (App.tsx, first part) *)
(* ===================================================================== *)

(** [handleAnalyze] as it was before the coping step was added.  That
    version of [App] has no [copingText] cell; on the state record used here
    the cell is present and this handler has no setter for it. *)
Module AppV1.

Definition handleAnalyze (text : jsstring) : M unit :=
  setError None ;;
  setResult None ;;
  if negb (truthy (trim text)) then
    setError (Some (lit "Please write a short journal entry first.")) ;;
    ret tt
  else
    try_catch_finally
      (setLoading true ;;
       data <- analyzeJournalEntry text ;;
       setResult (Some data))
      (fun err =>
         console_error err ;;
         setError (Some (message err ||| lit "Something went wrong. Please try again.")))
      (setLoading false).

Definition submit (net : Network) (s : UIState) : World :=
  snd (handleAnalyze (text s) net {| ui := s; trace := [] |}).

(** The events of one submission of this version. *)
Definition submit_events (net : Network) (t : jsstring) : list Event :=
  [call_setError None; call_setResult None] ++
  if truthy (trim t) then
    [call_setLoading true; call_fetch (predict_request t)] ++
    match analyze_outcome net t with
    | Throw err =>
        [call_console_error err;
         call_setError (Some (message err ||| fallback_message))]
    | Normal data => [call_setResult (Some data)]
    end ++
    [call_setLoading false]
  else
    [call_setError (Some validation_message)].

End AppV1.

(* ===================================================================== *)
(** ** An answer whose body cannot be read *)
(* ===================================================================== *)

Module Unreadable.

(** What [res.text()] and [res.json()] reject with when the connection drops
    after the status line and the headers have arrived. *)
Definition body_lost : JsError :=
  {| name := lit "TypeError"; message := lit "Error in body stream" |}.

(** A 502 whose body never arrives. *)
Definition predict_502 : Response AnalyzeResponse :=
  {| status := 502; statusText := lit "Bad Gateway";
     res_text := Throw body_lost; res_json := Throw body_lost |}.

Definition net : Network :=
  {| predict_route := fun _ => Normal predict_502;
     coping_route := fun _ => Normal Samples.coping_200 |}.

End Unreadable.

(* ===================================================================== *)
(** ** Strings *)
(* ===================================================================== *)

Section Strings.

Lemma jsstring_eqb_eq (a b : jsstring) : jsstring_eqb a b = true <-> a = b.
Proof.
  revert b; induction a as [|x a IH]; intros [|y b]; simpl; split;
    try congruence; try reflexivity.
  - intros H. apply andb_true_iff in H as [Hx Hab].
    apply N.eqb_eq in Hx. apply IH in Hab. congruence.
  - intros H. injection H as -> ->.
    rewrite N.eqb_refl. simpl. now apply IH.
Qed.

Lemma trimStart_nil_iff (s : jsstring) :
  trimStart s = [] <-> forallb isWhiteSpace s = true.
Proof.
  induction s as [|c s IH]; simpl.
  - tauto.
  - destruct (isWhiteSpace c); simpl.
    + exact IH.
    + split; discriminate.
Qed.

(** What [trimStart] leaves is white space only when nothing is left. *)
Lemma trimStart_all_white (s : jsstring) :
  forallb isWhiteSpace (trimStart s) = true -> trimStart s = [].
Proof.
  induction s as [|c s IH]; simpl; [reflexivity|].
  destruct (isWhiteSpace c) eqn:Hc; [exact IH|].
  simpl. rewrite Hc. discriminate.
Qed.

Lemma forallb_rev (f : char16 -> bool) (s : jsstring) :
  forallb f (rev s) = forallb f s.
Proof.
  induction s as [|c s IH]; simpl; [reflexivity|].
  rewrite forallb_app, IH. simpl. rewrite andb_true_r. apply andb_comm.
Qed.

Lemma rev_nil_inv (s : jsstring) : rev s = [] -> s = [].
Proof.
  intros H. apply (f_equal (@rev _)) in H. now rewrite rev_involutive in H.
Qed.

(** The trimmed form is empty exactly for the strings of white space,
    the empty string among them. *)
Lemma trim_nil_iff (s : jsstring) :
  trim s = [] <-> forallb isWhiteSpace s = true.
Proof.
  unfold trim, trimEnd. split.
  - intros H. apply rev_nil_inv in H.
    apply trimStart_nil_iff in H. rewrite forallb_rev in H.
    apply trimStart_all_white in H. now apply trimStart_nil_iff.
  - intros H. apply trimStart_nil_iff in H. rewrite H. reflexivity.
Qed.

Lemma truthy_false_iff (s : jsstring) : truthy s = false <-> s = [].
Proof. destruct s; simpl; split; congruence. Qed.

Lemma truthy_true_iff (s : jsstring) : truthy s = true <-> s <> [].
Proof. destruct s; simpl; split; congruence. Qed.

Lemma or_else_truthy (a b : jsstring) : truthy b = true -> truthy (a ||| b) = true.
Proof. unfold or_else. destruct (truthy a) eqn:Ha; auto. Qed.

End Strings.

(* ===================================================================== *)
(** ** Runs of the client and of the handler *)
(* ===================================================================== *)

Section Runs.

Variable net : Network.

Lemma emit_run (e : Event) (w : World) : emit e net w = (Normal tt, log w [e]).
Proof. reflexivity. Qed.

Lemma log_log (w : World) (a b : list Event) : log (log w a) b = log w (a ++ b).
Proof.
  unfold log, replay. cbn [ui trace]. now rewrite fold_left_app, app_assoc.
Qed.

Lemma fetch_run {T} (route : Network -> Request -> completion (Response T))
    (input : jsstring) (init : RequestInit) (w : World) :
  fetch route input init net w =
  let req := {| url := input; method := init_method init;
                headers := init_headers init; body := init_body init |} in
  (route net req, log w [call_fetch req]).
Proof. reflexivity. Qed.

(** [analyzeJournalEntry] in one piece: one request, and a completion that
    depends on the answer alone. *)
Lemma analyzeJournalEntry_unfold (t : jsstring) (w : World) :
  analyzeJournalEntry t net w =
  (match predict_route net (predict_request t) with
   | Throw e => Throw e
   | Normal res =>
       if ok res then res_json res
       else match res_text res with
            | Normal errorText =>
                Throw (Error (lit "API error " +++ Number_toString (status res)
                              +++ lit ": " +++ (errorText ||| statusText res)))
            | Throw e => Throw e
            end
   end,
   log w [call_fetch (predict_request t)]).
Proof.
  unfold analyzeJournalEntry, bind. rewrite fetch_run. cbv zeta.
  change {| url := _; method := _; headers := _; body := _ |}
    with (predict_request t).
  destruct (predict_route net (predict_request t)) as [res|e]; [|reflexivity].
  destruct (ok res); cbn [negb]; [reflexivity|].
  unfold await, throw. destruct (res_text res); reflexivity.
Qed.

Lemma getCopingSuggestion_unfold (b : CopingRequest) (w : World) :
  let req := coping_request (journal b) (cr_primary_emotion b) (cr_stress_level b) in
  getCopingSuggestion b net w =
  (match coping_route net req with
   | Throw e => Throw e
   | Normal res =>
       if ok res then res_json res
       else Throw (Error (lit "Failed to get coping suggestions"))
   end,
   log w [call_fetch req]).
Proof.
  unfold getCopingSuggestion, bind. rewrite fetch_run. cbv zeta.
  change {| url := _; method := _; headers := _; body := _ |}
    with (coping_request (journal b) (cr_primary_emotion b) (cr_stress_level b)).
  destruct (coping_route net _) as [res|e]; [|reflexivity].
  destruct (ok res); reflexivity.
Qed.

Lemma analyzeJournalEntry_run (t : jsstring) (w : World) :
  analyzeJournalEntry t net w =
  (analyze_outcome net t, log w [call_fetch (predict_request t)]).
Proof.
  unfold analyze_outcome. now rewrite !analyzeJournalEntry_unfold.
Qed.

Lemma getCopingSuggestion_run (b : CopingRequest) (w : World) :
  getCopingSuggestion b net w =
  (coping_outcome net b,
   log w [call_fetch (coping_request (journal b) (cr_primary_emotion b) (cr_stress_level b))]).
Proof.
  unfold coping_outcome. now rewrite !getCopingSuggestion_unfold.
Qed.

(** One step of a handler: run the setters and the client calls in front. *)
Ltac run_step :=
  rewrite ?emit_run, ?analyzeJournalEntry_run, ?getCopingSuggestion_run.

Ltac open_handler :=
  unfold handleAnalyze, try_catch_finally, bind;
  unfold setError, setResult, setCopingText, setLoading, console_error;
  run_step.

Lemma handleAnalyze_run (t : jsstring) (w : World) :
  snd (handleAnalyze t net w) = log w (submit_events net t).
Proof.
  open_handler. unfold submit_events.
  destruct (truthy (trim t)); cbn [negb].
  - run_step.
    destruct (analyze_outcome net t) as [data|err]; run_step.
    + destruct (coping_outcome net _) as [coping|err];
        run_step; cbn [snd]; rewrite !log_log; reflexivity.
    + cbn [snd]. rewrite !log_log. reflexivity.
  - run_step. unfold ret. cbn [snd]. rewrite !log_log. reflexivity.
Qed.

(** The handler catches whatever its calls throw: its promise never rejects. *)
Lemma handleAnalyze_completes (t : jsstring) (w : World) :
  fst (handleAnalyze t net w) = Normal tt.
Proof.
  open_handler.
  destruct (truthy (trim t)); cbn [negb]; [|reflexivity].
  run_step.
  destruct (analyze_outcome net t) as [data|err]; run_step; [|reflexivity].
  destruct (coping_outcome net _) as [coping|err]; reflexivity.
Qed.

Lemma submit_run (s : UIState) :
  submit net s =
  {| ui := replay s (submit_events net (text s)); trace := submit_events net (text s) |}.
Proof. unfold submit. now rewrite handleAnalyze_run. Qed.

(** *** What the two client functions complete with, by what the network did *)

Lemma analyze_outcome_rejected (t : jsstring) (e : JsError) :
  predict_route net (predict_request t) = Throw e ->
  analyze_outcome net t = Throw e.
Proof.
  intros H. unfold analyze_outcome.
  rewrite analyzeJournalEntry_unfold. cbn [fst]. now rewrite H.
Qed.

Lemma analyze_outcome_not_ok (t : jsstring) (res : Response AnalyzeResponse) :
  predict_route net (predict_request t) = Normal res ->
  ok res = false ->
  analyze_outcome net t =
  match res_text res with
  | Normal errorText =>
      Throw (Error (lit "API error " +++ Number_toString (status res) +++ lit ": "
                    +++ (errorText ||| statusText res)))
  | Throw e => Throw e
  end.
Proof.
  intros H Hok. unfold analyze_outcome.
  rewrite analyzeJournalEntry_unfold. cbn [fst]. now rewrite H, Hok.
Qed.

Lemma analyze_outcome_ok (t : jsstring) (res : Response AnalyzeResponse) :
  predict_route net (predict_request t) = Normal res ->
  ok res = true ->
  analyze_outcome net t = res_json res.
Proof.
  intros H Hok. unfold analyze_outcome.
  rewrite analyzeJournalEntry_unfold. cbn [fst]. now rewrite H, Hok.
Qed.

(** The other direction: a value comes only out of a 2xx response. *)
Lemma analyze_outcome_Normal_inv (t : jsstring) (data : AnalyzeResponse) :
  analyze_outcome net t = Normal data ->
  exists res, predict_route net (predict_request t) = Normal res /\
              ok res = true /\ res_json res = Normal data.
Proof.
  intros H.
  destruct (predict_route net (predict_request t)) as [res|e] eqn:Hr.
  - destruct (ok res) eqn:Hok.
    + exists res. rewrite (analyze_outcome_ok _ Hr Hok) in H. auto.
    + rewrite (analyze_outcome_not_ok _ Hr Hok) in H.
      destruct (res_text res); discriminate.
  - rewrite (analyze_outcome_rejected _ Hr) in H. discriminate.
Qed.

Lemma coping_outcome_not_ok (b : CopingRequest) (res : Response CopingResponse) :
  coping_route net (coping_request (journal b) (cr_primary_emotion b) (cr_stress_level b))
    = Normal res ->
  ok res = false ->
  coping_outcome net b = Throw (Error (lit "Failed to get coping suggestions")).
Proof.
  intros H Hok. unfold coping_outcome.
  rewrite getCopingSuggestion_unfold. cbn [fst]. now rewrite H, Hok.
Qed.

Lemma coping_outcome_ok (b : CopingRequest) (res : Response CopingResponse) :
  coping_route net (coping_request (journal b) (cr_primary_emotion b) (cr_stress_level b))
    = Normal res ->
  ok res = true ->
  coping_outcome net b = res_json res.
Proof.
  intros H Hok. unfold coping_outcome.
  rewrite getCopingSuggestion_unfold. cbn [fst]. now rewrite H, Hok.
Qed.

End Runs.

(* ===================================================================== *)
(** ** The four paths of a submission *)
(* ===================================================================== *)

Section Paths.

Variable net : Network.
Variable t : jsstring.

Lemma events_invalid :
  truthy (trim t) = false ->
  submit_events net t =
  [call_setError None; call_setResult None; call_setCopingText (lit "");
   call_setError (Some validation_message)].
Proof. intros H. unfold submit_events. now rewrite H. Qed.

Lemma events_analyze_fails (err : JsError) :
  truthy (trim t) = true ->
  analyze_outcome net t = Throw err ->
  submit_events net t =
  [call_setError None; call_setResult None; call_setCopingText (lit "");
   call_setLoading true; call_fetch (predict_request t);
   call_console_error err;
   call_setError (Some (message err ||| fallback_message));
   call_setLoading false].
Proof. intros H Ha. unfold submit_events. now rewrite H, Ha. Qed.

Lemma events_coping_fails (data : AnalyzeResponse) (err : JsError) :
  truthy (trim t) = true ->
  analyze_outcome net t = Normal data ->
  coping_outcome net (coping_body t data) = Throw err ->
  submit_events net t =
  [call_setError None; call_setResult None; call_setCopingText (lit "");
   call_setLoading true; call_fetch (predict_request t);
   call_setResult (Some data);
   call_fetch (coping_request t (primary_emotion data) (stress_level data));
   call_console_error err;
   call_setError (Some (message err ||| fallback_message));
   call_setLoading false].
Proof. intros H Ha Hc. unfold submit_events. now rewrite H, Ha, Hc. Qed.

Lemma events_success (data : AnalyzeResponse) (coping : CopingResponse) :
  truthy (trim t) = true ->
  analyze_outcome net t = Normal data ->
  coping_outcome net (coping_body t data) = Normal coping ->
  submit_events net t =
  [call_setError None; call_setResult None; call_setCopingText (lit "");
   call_setLoading true; call_fetch (predict_request t);
   call_setResult (Some data);
   call_fetch (coping_request t (primary_emotion data) (stress_level data));
   call_setCopingText (coping_text coping);
   call_setLoading false].
Proof. intros H Ha Hc. unfold submit_events. now rewrite H, Ha, Hc. Qed.

(** The requests of a submission that passed validation: the one to /predict,
    and after it the one to /coping when the first call returned a value. *)
Lemma fetches_valid :
  truthy (trim t) = true ->
  fetches (submit_events net t) =
  predict_request t ::
  match analyze_outcome net t with
  | Normal data => [coping_request t (primary_emotion data) (stress_level data)]
  | Throw _ => []
  end.
Proof.
  intros H. unfold submit_events. rewrite H.
  destruct (analyze_outcome net t) as [data|err]; [|reflexivity].
  destruct (coping_outcome net (coping_body t data)); reflexivity.
Qed.

End Paths.

(* ===================================================================== *)
(** ** Traces and messages *)
(* ===================================================================== *)

Lemma loading_at_fetches_split (evs : list Event) :
  forall s, loading_at_fetches s evs = true ->
  forall pre req post, evs = pre ++ call_fetch req :: post ->
  loading (replay s pre) = true.
Proof.
  induction evs as [|e evs IH]; intros s H pre req post Heq.
  - destruct pre; discriminate.
  - destruct pre as [|e' pre].
    + simpl in Heq. injection Heq as -> _. simpl in H.
      now apply andb_true_iff in H.
    + simpl in Heq. injection Heq as <- Heq.
      unfold replay. simpl fold_left.
      apply (IH (apply_event s e)) with (req := req) (post := post); [|exact Heq].
      destruct e; simpl in H; try exact H.
      apply andb_true_iff in H as [_ H]. exact H.
Qed.

Lemma has_digit_app (a b : jsstring) :
  has_digit (a ++ b) = has_digit a || has_digit b.
Proof. unfold has_digit. apply existsb_app. Qed.

(** The decimal form of a number has a digit in it. *)
Lemma has_digit_Number_toString (n : N) : has_digit (Number_toString n) = true.
Proof.
  unfold Number_toString, NilZero.string_of_uint.
  destruct (N.to_uint n); reflexivity.
Qed.

Lemma url_predict_request (t : jsstring) : url (predict_request t) = predict_url.
Proof. reflexivity. Qed.

Lemma url_coping_request (j e l : jsstring) : url (coping_request j e l) = coping_url.
Proof. reflexivity. Qed.

Lemma predict_url_not_coping_url : predict_url <> coping_url.
Proof. intros H. apply jsstring_eqb_eq in H. vm_compute in H. discriminate. Qed.

(* ===================================================================== *)
(** ** The API client: error messages *)
(* ===================================================================== *)




(** C7.  When /coping answers with a status outside 200-299,
    [getCopingSuggestion] throws an [Error] with the message
    "Failed to get coping suggestions".  The message is the same for any two
    such answers, whatever their status, status text and body, and the
    decimal status code does not occur in it. *)
Theorem C7_coping_error_generic
    (net : Network) (b : CopingRequest) (w : World) (res : Response CopingResponse) :
  coping_route net (coping_request (journal b) (cr_primary_emotion b) (cr_stress_level b))
    = Normal res ->
  ok res = false ->
  fst (getCopingSuggestion b net w) = Throw (Error coping_failure_message) /\
  (forall pre post,
     coping_failure_message <> pre ++ Number_toString (status res) ++ post) /\
  (forall net' w' res',
     coping_route net' (coping_request (journal b) (cr_primary_emotion b) (cr_stress_level b))
       = Normal res' ->
     ok res' = false ->
     fst (getCopingSuggestion b net' w') = fst (getCopingSuggestion b net w)).
Proof.
  intros Hroute Hok. repeat split.
  - rewrite getCopingSuggestion_run. cbn [fst].
    exact (coping_outcome_not_ok _ _ Hroute Hok).
  - intros pre post Heq.
    assert (Hd : has_digit coping_failure_message = true).
    { rewrite Heq, !has_digit_app, has_digit_Number_toString.
      now rewrite orb_true_r. }
    vm_compute in Hd. discriminate.
  - intros net' w' res' Hroute' Hok'.
    rewrite !getCopingSuggestion_run. cbn [fst].
    rewrite (coping_outcome_not_ok _ _ Hroute Hok).
    exact (coping_outcome_not_ok _ _ Hroute' Hok').
Qed.

Lemma C7_witness :
  fst (getCopingSuggestion
         (coping_body (lit "I feel overwhelmed today") Samples.data)
         Samples.net_coping_503 {| ui := Samples.typed; trace := [] |})
  = fst (getCopingSuggestion
         (coping_body (lit "I feel overwhelmed today") Samples.data)
         Samples.net_coping_404 {| ui := initialState; trace := [] |}).
Proof.
  symmetry.
  exact (proj2 (proj2 (@C7_coping_error_generic Samples.net_coping_503
           (coping_body (lit "I feel overwhelmed today") Samples.data)
           {| ui := Samples.typed; trace := [] |} Samples.coping_503
           eq_refl eq_refl))
         Samples.net_coping_404 {| ui := initialState; trace := [] |}
         Samples.coping_404 eq_refl eq_refl).
Defined.

(* ===================================================================== *)
(** ** The submit operation *)
(* ===================================================================== *)

(** C1.  A submission whose trimmed text is not empty sends exactly one
    request to /predict: a POST whose body is [{text}], first among the
    requests of the submission.  Either it is the only request, or /predict
    answered with a 2xx status and a body that parsed to [data], and one
    request to /coping follows it. *)
Theorem C1_predict_once_before_coping (net : Network) (s : UIState) :
  trim (text s) <> [] ->
  let reqs := fetches (trace (submit net s)) in
  count_url predict_url reqs = 1%nat /\
  (reqs = [predict_request (text s)] \/
   exists res data,
     predict_route net (predict_request (text s)) = Normal res /\
     ok res = true /\
     res_json res = Normal data /\
     reqs = [predict_request (text s);
             coping_request (text s) (primary_emotion data) (stress_level data)]).
Proof.
  intros Hne reqs. subst reqs. apply truthy_true_iff in Hne.
  rewrite submit_run. cbn [trace]. rewrite (fetches_valid _ _ Hne).
  destruct (analyze_outcome net (text s)) as [data|err] eqn:Ha.
  - split; [reflexivity|]. right.
    destruct (analyze_outcome_Normal_inv _ _ Ha) as [res [Hr [Hok Hj]]].
    exists res, data. auto.
  - split; [reflexivity|]. now left.
Qed.

Lemma C1_witness :
  fetches (trace (submit Samples.net_ok Samples.typed)) =
  [predict_request (lit "  I feel overwhelmed today ");
   coping_request (lit "  I feel overwhelmed today ") (lit "anxiety") (lit "high")].
Proof.
  assert (Hne : trim (text Samples.typed) <> []) by (vm_compute; discriminate).
  destruct (proj2 (C1_predict_once_before_coping Samples.net_ok Samples.typed Hne))
    as [Hone | [res [data [Hr [_ [Hj Htwo]]]]]].
  - vm_compute in Hone. discriminate.
  - injection Hr as <-. injection Hj as <-. exact Htwo.
Defined.

(** C2.  When /predict answers a submission with a status outside 200-299,
    no request goes to /coping, the handler never sets [result] to anything
    but null, and at the end [error] is a string, and not the empty one,
    [result] is null and [loading] is false. *)
Theorem C2_predict_failure
    (net : Network) (s : UIState) (res : Response AnalyzeResponse) :
  trim (text s) <> [] ->
  predict_route net (predict_request (text s)) = Normal res ->
  ok res = false ->
  let w := submit net s in
  count_url coping_url (fetches (trace w)) = 0%nat /\
  (forall v, In (call_setResult v) (trace w) -> v = None) /\
  (exists msg, error (ui w) = Some msg /\ msg <> []) /\
  result (ui w) = None /\
  loading (ui w) = false.
Proof.
  intros Hne Hr Hok w. subst w. apply truthy_true_iff in Hne.
  assert (Hthrow : exists err, analyze_outcome net (text s) = Throw err).
  { rewrite (analyze_outcome_not_ok _ _ Hr Hok).
    destruct (res_text res); eauto. }
  destruct Hthrow as [err Ha].
  rewrite submit_run, (events_analyze_fails _ _ Hne Ha). cbn [ui trace].
  repeat split.
  - intros v Hin. simpl in Hin.
    repeat (destruct Hin as [Hin|Hin]; [try discriminate; congruence|]).
    contradiction.
  - eexists. split; [reflexivity|].
    apply truthy_true_iff, or_else_truthy. reflexivity.
Qed.

Lemma C2_witness :
  error (ui (submit Samples.net_predict_500 Samples.typed)) <> None /\
  result (ui (submit Samples.net_predict_500 Samples.typed)) = None /\
  loading (ui (submit Samples.net_predict_500 Samples.typed)) = false.
Proof.
  assert (Hne : trim (text Samples.typed) <> []) by (vm_compute; discriminate).
  destruct (@C2_predict_failure Samples.net_predict_500 Samples.typed
              Samples.predict_500 Hne eq_refl eq_refl)
    as [_ [_ [[msg [Herr _]] [Hres Hload]]]].
  rewrite Herr. split; [discriminate | split; [exact Hres | exact Hload]].
Defined.

(** C3.  When /predict answers with a 2xx status and a body that parses to
    [data], and /coping answers with a status outside 200-299, at the end
    [result] is [data], [copingText] is the empty string and [error] is the
    string "Failed to get coping suggestions". *)
Theorem C3_coping_failure
    (net : Network) (s : UIState)
    (pres : Response AnalyzeResponse) (data : AnalyzeResponse)
    (cres : Response CopingResponse) :
  trim (text s) <> [] ->
  predict_route net (predict_request (text s)) = Normal pres ->
  ok pres = true ->
  res_json pres = Normal data ->
  coping_route net
    (coping_request (text s) (primary_emotion data) (stress_level data)) = Normal cres ->
  ok cres = false ->
  let w := submit net s in
  result (ui w) = Some data /\
  copingText (ui w) = lit "" /\
  error (ui w) = Some coping_failure_message.
Proof.
  intros Hne Hr Hok Hj Hc Hcok w. subst w. apply truthy_true_iff in Hne.
  assert (Ha : analyze_outcome net (text s) = Normal data).
  { now rewrite (analyze_outcome_ok _ _ Hr Hok). }
  assert (Hco : coping_outcome net (coping_body (text s) data)
                = Throw (Error coping_failure_message)).
  { exact (coping_outcome_not_ok net (coping_body (text s) data) Hc Hcok). }
  rewrite submit_run, (events_coping_fails _ _ Hne Ha Hco).
  repeat split.
Qed.

Lemma C3_witness :
  result (ui (submit Samples.net_coping_503 Samples.typed)) = Some Samples.data /\
  copingText (ui (submit Samples.net_coping_503 Samples.typed)) = lit "" /\
  error (ui (submit Samples.net_coping_503 Samples.typed))
    = Some (lit "Failed to get coping suggestions").
Proof.
  assert (Hne : trim (text Samples.typed) <> []) by (vm_compute; discriminate).
  exact (@C3_coping_failure Samples.net_coping_503 Samples.typed
           Samples.predict_200 Samples.data Samples.coping_503
           Hne eq_refl eq_refl eq_refl eq_refl eq_refl).
Defined.

(** C4.  When /predict answers with a 2xx status and a body that parses to
    [data], and /coping answers with a 2xx status and a body that parses to
    [coping], at the end [result] is [data], [copingText] is
    [coping.coping_text] and [error] is null. *)
Theorem C4_full_success
    (net : Network) (s : UIState)
    (pres : Response AnalyzeResponse) (data : AnalyzeResponse)
    (cres : Response CopingResponse) (coping : CopingResponse) :
  trim (text s) <> [] ->
  predict_route net (predict_request (text s)) = Normal pres ->
  ok pres = true ->
  res_json pres = Normal data ->
  coping_route net
    (coping_request (text s) (primary_emotion data) (stress_level data)) = Normal cres ->
  ok cres = true ->
  res_json cres = Normal coping ->
  let w := submit net s in
  result (ui w) = Some data /\
  copingText (ui w) = coping_text coping /\
  error (ui w) = None.
Proof.
  intros Hne Hr Hok Hj Hc Hcok Hcj w. subst w. apply truthy_true_iff in Hne.
  assert (Ha : analyze_outcome net (text s) = Normal data).
  { now rewrite (analyze_outcome_ok _ _ Hr Hok). }
  assert (Hco : coping_outcome net (coping_body (text s) data) = Normal coping).
  { now rewrite (coping_outcome_ok net (coping_body (text s) data) Hc Hcok). }
  rewrite submit_run, (events_success _ _ Hne Ha Hco).
  repeat split.
Qed.

Lemma C4_witness :
  result (ui (submit Samples.net_ok Samples.typed)) = Some Samples.data /\
  copingText (ui (submit Samples.net_ok Samples.typed))
    = lit "Try a short breathing exercise." /\
  error (ui (submit Samples.net_ok Samples.typed)) = None.
Proof.
  assert (Hne : trim (text Samples.typed) <> []) by (vm_compute; discriminate).
  exact (@C4_full_success Samples.net_ok Samples.typed
           Samples.predict_200 Samples.data Samples.coping_200 Samples.coping
           Hne eq_refl eq_refl eq_refl eq_refl eq_refl eq_refl).
Defined.

(** C5.  A submission whose trimmed text is empty, as it is for a text of
    white space only, sets [error] to "Please write a short journal entry
    first." and calls [fetch] not once. *)
Theorem C5_validation (net : Network) (s : UIState) :
  trim (text s) = [] ->
  let w := submit net s in
  error (ui w) = Some validation_message /\
  fetches (trace w) = [].
Proof.
  intros He w. subst w. apply truthy_false_iff in He.
  rewrite submit_run, (events_invalid net _ He). split; reflexivity.
Qed.

Lemma C5_witness :
  forallb isWhiteSpace (text Samples.blank) = true /\
  error (ui (submit Samples.net_ok Samples.blank))
    = Some (lit "Please write a short journal entry first.") /\
  fetches (trace (submit Samples.net_ok Samples.blank)) = [].
Proof.
  split; [reflexivity|].
  exact (C5_validation Samples.net_ok Samples.blank eq_refl).
Defined.

(** C8.  In a submission that passes validation the handler calls
    [setLoading(true)] before its first call of [fetch], [loading] is true
    at every call of [fetch], and [loading] is false when the handler is
    done, whatever the two calls come to. *)
Theorem C8_loading_bracket (net : Network) (s : UIState) :
  trim (text s) <> [] ->
  let w := submit net s in
  (exists pre req post,
     trace w = pre ++ call_fetch req :: post /\
     fetches pre = [] /\
     In (call_setLoading true) pre) /\
  (forall pre req post,
     trace w = pre ++ call_fetch req :: post ->
     loading (replay s pre) = true) /\
  loading (ui w) = false.
Proof.
  intros Hne w. subst w. apply truthy_true_iff in Hne.
  rewrite submit_run. cbn [ui trace]. split; [|split].
  - unfold submit_events. rewrite Hne.
    exists [call_setError None; call_setResult None; call_setCopingText (lit "");
            call_setLoading true].
    eexists. eexists. split; [reflexivity|]. split; [reflexivity|].
    simpl. auto.
  - apply loading_at_fetches_split.
    unfold submit_events. rewrite Hne.
    destruct (analyze_outcome net (text s)) as [data|err]; [|reflexivity].
    destruct (coping_outcome net (coping_body (text s) data)); reflexivity.
  - unfold submit_events. rewrite Hne.
    destruct (analyze_outcome net (text s)) as [data|err]; [|reflexivity].
    destruct (coping_outcome net (coping_body (text s) data)); reflexivity.
Qed.

Lemma C8_witness :
  loading (replay Samples.typed
             [call_setError None; call_setResult None; call_setCopingText (lit "");
              call_setLoading true; call_fetch (predict_request (text Samples.typed));
              call_setResult (Some Samples.data)]) = true /\
  loading (ui (submit Samples.net_coping_503 Samples.typed)) = false.
Proof.
  assert (Hne : trim (text Samples.typed) <> []) by (vm_compute; discriminate).
  destruct (C8_loading_bracket Samples.net_coping_503 Samples.typed Hne)
    as [_ [Hduring Hafter]].
  split; [|exact Hafter].
  eapply Hduring. reflexivity.
Defined.

(** C9.  [handleAnalyze] calls neither [setText] nor [setPage]: after any
    submission, valid or not and however the calls end, [text] and [page]
    are what they were when it started. *)
Theorem C9_text_page_frame (net : Network) (s : UIState) :
  let w := submit net s in
  text (ui w) = text s /\
  page (ui w) = page s /\
  (forall e, In e (trace w) ->
     (forall v, e <> call_setText v) /\ (forall v, e <> call_setPage v)).
Proof.
  intros w. subst w. rewrite submit_run. cbn [ui trace].
  unfold submit_events.
  destruct (truthy (trim (text s)));
    [destruct (analyze_outcome net (text s)) as [data|err];
     [destruct (coping_outcome net (coping_body (text s) data)) as [coping|err]|]|];
    (split; [reflexivity|]; split; [reflexivity|]);
    intros e Hin; simpl in Hin;
    repeat (destruct Hin as [<-|Hin]; [split; discriminate|]);
    contradiction.
Qed.

(** C10.  Every request a submission sends to /coping has as its body the
    JSON text of an object whose [journal] is the submitted text as it is,
    not trimmed, and whose [primary_emotion] and [stress_level] are those of
    the value [data] that /predict just answered with. *)
Theorem C10_coping_request_fields (net : Network) (s : UIState) (req : Request) :
  In req (fetches (trace (submit net s))) ->
  url req = coping_url ->
  exists res data,
    predict_route net (predict_request (text s)) = Normal res /\
    ok res = true /\
    res_json res = Normal data /\
    method req = lit "POST" /\
    body req =
      JSON.stringify
        (JSON.Obj [(lit "journal", JSON.Str (text s));
                   (lit "primary_emotion", JSON.Str (primary_emotion data));
                   (lit "stress_level", JSON.Str (stress_level data))]).
Proof.
  intros Hin Hurl. rewrite submit_run in Hin. cbn [trace] in Hin.
  destruct (truthy (trim (text s))) eqn:Hne.
  - rewrite (fetches_valid _ _ Hne) in Hin.
    destruct Hin as [<-|Hin].
    { rewrite url_predict_request in Hurl.
      now apply predict_url_not_coping_url in Hurl. }
    destruct (analyze_outcome net (text s)) as [data|err] eqn:Ha; [|contradiction].
    destruct Hin as [<-|[]].
    destruct (analyze_outcome_Normal_inv _ _ Ha) as [res [Hr [Hok Hj]]].
    exists res, data. repeat split; assumption.
  - rewrite (events_invalid net _ Hne) in Hin. contradiction.
Qed.

Lemma C10_witness :
  body (coping_request (lit "  I feel overwhelmed today ") (lit "anxiety") (lit "high"))
  = JSON.stringify
      (JSON.Obj [(lit "journal", JSON.Str (lit "  I feel overwhelmed today "));
                 (lit "primary_emotion", JSON.Str (lit "anxiety"));
                 (lit "stress_level", JSON.Str (lit "high"))]).
Proof.
  destruct (@C10_coping_request_fields Samples.net_ok Samples.typed
              (coping_request (lit "  I feel overwhelmed today ") (lit "anxiety") (lit "high")))
    as [res [data [Hr [_ [Hj [_ Hbody]]]]]].
  - vm_compute. right. left. reflexivity.
  - reflexivity.
  - injection Hr as <-. injection Hj as <-. exact Hbody.
Defined.

(* ===================================================================== *)
(** ** Beyond the claims: failures of the runtime *)
(* ===================================================================== *)

Lemma existsb_negb_forallb (f : char16 -> bool) (s : jsstring) :
  existsb (fun c => negb (f c)) s = negb (forallb f s).
Proof.
  induction s as [|c s IH]; simpl; [reflexivity|].
  rewrite IH. now destruct (f c).
Qed.

Lemma coping_outcome_rejected (net : Network) (b : CopingRequest) (e : JsError) :
  coping_route net (coping_request (journal b) (cr_primary_emotion b) (cr_stress_level b))
    = Throw e ->
  coping_outcome net b = Throw e.
Proof.
  intros H. unfold coping_outcome.
  rewrite getCopingSuggestion_unfold. cbn [fst]. now rewrite H.
Qed.

Lemma coping_outcome_Normal_inv (net : Network) (b : CopingRequest) (c : CopingResponse) :
  coping_outcome net b = Normal c ->
  exists res,
    coping_route net (coping_request (journal b) (cr_primary_emotion b) (cr_stress_level b))
      = Normal res /\
    ok res = true /\ res_json res = Normal c.
Proof.
  intros H. unfold coping_outcome in H.
  rewrite getCopingSuggestion_unfold in H. cbn [fst] in H.
  destruct (coping_route net _) as [res|e]; [|discriminate].
  destruct (ok res) eqn:Hok; [|discriminate].
  exists res. auto.
Qed.

Lemma predict_fails_with_outcome (net : Network) (t : jsstring) (e : JsError) :
  predict_fails_with net t e -> analyze_outcome net t = Throw e.
Proof.
  intros [H | [[res [H [Hok Ht]]] | [res [H [Hok Hj]]]]].
  - now apply analyze_outcome_rejected.
  - now rewrite (analyze_outcome_not_ok _ _ H Hok), Ht.
  - now rewrite (analyze_outcome_ok _ _ H Hok).
Qed.

Lemma coping_fails_with_outcome (net : Network) (b : CopingRequest) (e : JsError) :
  coping_fails_with net
    (coping_request (journal b) (cr_primary_emotion b) (cr_stress_level b)) e ->
  coping_outcome net b = Throw e.
Proof.
  intros [H | [res [H [Hok Hj]]]].
  - now apply coping_outcome_rejected.
  - now rewrite (coping_outcome_ok _ _ H Hok).
Qed.

(** Every message the catch block stores is a non-empty string. *)
Lemma shown_message_not_empty (err : JsError) : message err ||| fallback_message <> [].
Proof. apply truthy_true_iff, or_else_truthy. reflexivity. Qed.

(** The four paths of [submit net s], as cases of the goal. *)
Ltac submit_paths net s :=
  rewrite ?submit_run; unfold submit_events;
  let data := fresh "data" in
  let err := fresh "err" in
  let coping := fresh "coping" in
  destruct (truthy (trim (text s))) eqn:Hvalid;
  [ destruct (analyze_outcome net (text s)) as [data|err] eqn:Ha;
    [ destruct (coping_outcome net (coping_body (text s) data)) as [coping|err] eqn:Hc
    | ]
  | ].

(** X1.  The promise of [handleAnalyze] never rejects: whatever [fetch],
    [res.text()] or [res.json()] throw is caught inside, from any state of
    the component. *)
Theorem X1_handler_never_rejects (net : Network) (t : jsstring) (w : World) :
  fst (handleAnalyze t net w) = Normal tt.
Proof. apply handleAnalyze_completes. Qed.

(** X2.  A submission calls [fetch] exactly when the text has a code unit
    that is not white space. *)
Theorem X2_request_iff_visible_text (net : Network) (s : UIState) :
  fetches (trace (submit net s)) <> [] <->
  existsb (fun c => negb (isWhiteSpace c)) (text s) = true.
Proof.
  rewrite existsb_negb_forallb, negb_true_iff, submit_run. cbn [trace].
  destruct (truthy (trim (text s))) eqn:Hvalid.
  - rewrite (fetches_valid _ _ Hvalid). split; [|discriminate].
    intros _. apply truthy_true_iff in Hvalid.
    destruct (forallb isWhiteSpace (text s)) eqn:Hw; [|reflexivity].
    apply trim_nil_iff in Hw. contradiction.
  - rewrite (events_invalid net _ Hvalid). cbn [fetches].
    apply truthy_false_iff, trim_nil_iff in Hvalid. rewrite Hvalid.
    split; [congruence|discriminate].
Qed.

(** X3.  When the /predict call fails with an error [e] of the runtime
    ([fetch] rejects, the body of an error answer cannot be read, or the
    body of a 2xx answer does not parse), the submission ends with [error]
    set to [e.message], or to "Something went wrong. Please try again." when
    that is empty; [result] is null, [copingText] is empty, [loading] is
    false, the only request is the one to /predict and [e] is what
    [console.error] got. *)
Theorem X3_predict_runtime_failure (net : Network) (s : UIState) (e : JsError) :
  trim (text s) <> [] ->
  predict_fails_with net (text s) e ->
  let w := submit net s in
  ui w = {| text := text s; loading := false;
            error := Some (message e ||| fallback_message);
            result := None; page := page s; copingText := lit "" |} /\
  fetches (trace w) = [predict_request (text s)] /\
  console_errors (trace w) = [e].
Proof.
  intros Hne Hfail w. subst w. apply truthy_true_iff in Hne.
  apply predict_fails_with_outcome in Hfail.
  rewrite submit_run, (events_analyze_fails _ _ Hne Hfail).
  repeat split.
Qed.

Lemma X3_witness :
  error (ui (submit Faults.net_aborted Samples.typed))
  = Some (lit "Something went wrong. Please try again.") /\
  error (ui (submit Faults.net_predict_garbled Samples.typed))
  = Some (lit "Unexpected token I in JSON at position 0").
Proof.
  assert (Hne : trim (text Samples.typed) <> []) by (vm_compute; discriminate).
  split.
  - rewrite (proj1 (@X3_predict_runtime_failure Faults.net_aborted Samples.typed
                      Faults.AbortError Hne (or_introl eq_refl))).
    reflexivity.
  - rewrite (proj1 (@X3_predict_runtime_failure Faults.net_predict_garbled Samples.typed
                      Samples.SyntaxError Hne
                      (or_intror (or_intror
                         (ex_intro _ _ (conj eq_refl (conj eq_refl eq_refl))))))).
    reflexivity.
Defined.

(** X4.  When /predict answers with a status outside 200-299 and a body that
    reads as [b], the submission ends with [error] set to the message of the
    client, "API error <status>: <b, or the status text when b is empty>":
    the fallback message is not used.  [result] is null and the error logged
    is the one shown. *)
Theorem X4_predict_http_error_displayed
    (net : Network) (s : UIState) (res : Response AnalyzeResponse) (b : jsstring) :
  trim (text s) <> [] ->
  predict_route net (predict_request (text s)) = Normal res ->
  ok res = false ->
  res_text res = Normal b ->
  let w := submit net s in
  let msg := lit "API error " +++ Number_toString (status res) +++ lit ": "
             +++ (b ||| statusText res) in
  error (ui w) = Some msg /\
  result (ui w) = None /\
  console_errors (trace w) = [Error msg].
Proof.
  intros Hne Hr Hok Hb w msg. subst w. apply truthy_true_iff in Hne.
  assert (Ha : analyze_outcome net (text s) = Throw (Error msg)).
  { now rewrite (analyze_outcome_not_ok _ _ Hr Hok), Hb. }
  rewrite submit_run, (events_analyze_fails _ _ Hne Ha).
  repeat split.
Qed.

Lemma X4_witness :
  error (ui (submit Samples.net_predict_500 Samples.typed))
  = Some (lit "API error 500: Internal Server Error").
Proof.
  assert (Hne : trim (text Samples.typed) <> []) by (vm_compute; discriminate).
  exact (proj1 (@X4_predict_http_error_displayed Samples.net_predict_500 Samples.typed
                  Samples.predict_500 (lit "Internal Server Error")
                  Hne eq_refl eq_refl eq_refl)).
Defined.

(** X5.  When /predict returned [data] and the /coping call fails with an
    error [e] of the runtime ([fetch] rejects, or the body of a 2xx answer
    does not parse), the submission keeps [result] = [data], leaves
    [copingText] empty, sets [error] to [e.message] or the fallback message,
    clears [loading], has sent two requests and has logged [e]. *)
Theorem X5_coping_runtime_failure
    (net : Network) (s : UIState) (pres : Response AnalyzeResponse)
    (data : AnalyzeResponse) (e : JsError) :
  trim (text s) <> [] ->
  predict_route net (predict_request (text s)) = Normal pres ->
  ok pres = true ->
  res_json pres = Normal data ->
  coping_fails_with net
    (coping_request (text s) (primary_emotion data) (stress_level data)) e ->
  let w := submit net s in
  ui w = {| text := text s; loading := false;
            error := Some (message e ||| fallback_message);
            result := Some data; page := page s; copingText := lit "" |} /\
  fetches (trace w) =
    [predict_request (text s);
     coping_request (text s) (primary_emotion data) (stress_level data)] /\
  console_errors (trace w) = [e].
Proof.
  intros Hne Hr Hok Hj Hfail w. subst w. apply truthy_true_iff in Hne.
  assert (Ha : analyze_outcome net (text s) = Normal data).
  { now rewrite (analyze_outcome_ok _ _ Hr Hok). }
  apply (@coping_fails_with_outcome net (coping_body (text s) data) e) in Hfail.
  rewrite submit_run, (events_coping_fails _ _ Hne Ha Hfail).
  repeat split.
Qed.

Lemma X5_witness :
  result (ui (submit Faults.net_coping_offline Samples.typed)) = Some Samples.data /\
  error (ui (submit Faults.net_coping_offline Samples.typed))
  = Some (lit "Failed to fetch").
Proof.
  assert (Hne : trim (text Samples.typed) <> []) by (vm_compute; discriminate).
  rewrite (proj1 (@X5_coping_runtime_failure Faults.net_coping_offline Samples.typed
                    Samples.predict_200 Samples.data Faults.TypeError_fetch
                    Hne eq_refl eq_refl eq_refl (or_introl eq_refl))).
  split; reflexivity.
Defined.

(* ===================================================================== *)
(** ** Beyond the claims: what every submission keeps *)
(* ===================================================================== *)

(** X6.  After any submission: an [error] that is set is never the empty
    string; when [error] is null there is a [result]; a [copingText] that is
    not empty comes with a [result] and no [error]; and without a [result]
    the [copingText] is empty. *)
Theorem X6_outcome_invariants (net : Network) (s : UIState) :
  let u := ui (submit net s) in
  (forall msg, error u = Some msg -> msg <> []) /\
  (error u = None -> exists data, result u = Some data) /\
  (copingText u <> [] -> error u = None /\ exists data, result u = Some data) /\
  (result u = None -> copingText u = []).
Proof.
  intros u. subst u.
  submit_paths net s; cbn [ui]; unfold replay; cbn [fold_left app apply_event];
    cbn [error result copingText];
    (split; [|split; [|split]]);
    try (intros msg Hmsg; injection Hmsg as <-;
         first [apply shown_message_not_empty | discriminate]);
    intros; try congruence; eauto;
    try match goal with H : lit "" <> [] |- _ => now elim H end.
Qed.

(** X7.  What a submission leaves in [error], [result] and [copingText], and
    the calls it makes, depend on the text and on the network only: nothing
    of an earlier submission shows through. *)
Theorem X7_no_residue (net : Network) (s1 s2 : UIState) :
  text s1 = text s2 ->
  let w1 := submit net s1 in
  let w2 := submit net s2 in
  trace w1 = trace w2 /\
  error (ui w1) = error (ui w2) /\
  result (ui w1) = result (ui w2) /\
  copingText (ui w1) = copingText (ui w2).
Proof.
  intros Ht w1 w2. subst w1 w2. rewrite !submit_run, <- Ht. cbn [ui trace].
  split; [reflexivity|].
  submit_paths net s1; repeat split.
Qed.

Lemma X7_witness :
  error (ui (submit Samples.net_ok Samples.typed))
  = error (ui (submit Samples.net_ok
                 (apply_event initialState (call_setText (text Samples.typed))))).
Proof.
  exact (proj1 (proj2 (@X7_no_residue Samples.net_ok Samples.typed
                         (apply_event initialState (call_setText (text Samples.typed)))
                         eq_refl))).
Defined.

(** X8.  Pressing Analyze again, with the text untouched and the network
    answering as before, leaves the state the first submission left. *)
Theorem X8_resubmit_idempotent (net : Network) (s : UIState) :
  ui (submit net (ui (submit net s))) = ui (submit net s).
Proof.
  assert (Htext : text (ui (submit net s)) = text s)
    by (rewrite submit_run; submit_paths net s; reflexivity).
  rewrite (submit_run net (ui (submit net s))), Htext.
  rewrite (submit_run net s). cbn [ui].
  submit_paths net s; reflexivity.
Qed.

(** X9.  [loading] after a submission: false whenever the text passed
    validation, and what it was before when validation stopped the handler,
    which returns before it touches the flag.  A submission started with the
    flag down never leaves it up. *)
Theorem X9_loading_after_submit (net : Network) (s : UIState) :
  loading (ui (submit net s)) = (if truthy (trim (text s)) then false else loading s) /\
  (loading s = false -> loading (ui (submit net s)) = false).
Proof.
  assert (H : loading (ui (submit net s))
              = if truthy (trim (text s)) then false else loading s).
  { rewrite submit_run. cbn [ui]. unfold submit_events.
    destruct (truthy (trim (text s))); [|reflexivity].
    destruct (analyze_outcome net (text s)) as [data|err]; [|reflexivity].
    destruct (coping_outcome net (coping_body (text s) data)); reflexivity. }
  split; [exact H|].
  intros H0. rewrite H. now destruct (truthy (trim (text s))).
Qed.

(** X10.  A submission sends at most two requests.  Each is a POST with the
    one header Content-Type: application/json, and goes to /predict or to
    /coping under the base URL; neither URL is asked twice. *)
Theorem X10_requests_wellformed (net : Network) (s : UIState) :
  let reqs := fetches (trace (submit net s)) in
  (List.length reqs <= 2)%nat /\
  (count_url predict_url reqs <= 1)%nat /\
  (count_url coping_url reqs <= 1)%nat /\
  (forall req, In req reqs ->
     method req = lit "POST" /\
     headers req = [(lit "Content-Type", lit "application/json")] /\
     (url req = lit "http://127.0.0.1:8000/predict" \/
      url req = lit "http://127.0.0.1:8000/coping")).
Proof.
  intros reqs. subst reqs. rewrite submit_run. cbn [trace].
  destruct (truthy (trim (text s))) eqn:Hvalid.
  - rewrite (fetches_valid _ _ Hvalid).
    destruct (analyze_outcome net (text s)) as [data|err];
      (split; [simpl; lia|]); (split; [cbv; lia|]); (split; [cbv; lia|]);
      intros req Hin; simpl in Hin;
      repeat (destruct Hin as [<-|Hin]; [repeat split; auto|]);
      contradiction.
  - rewrite (events_invalid net _ Hvalid). cbn [fetches].
    split; [simpl; lia|]. split; [cbv; lia|]. split; [cbv; lia|].
    intros req [].
Qed.

(** X11.  [console.error] is called at most once in a submission, never for
    the validation message, and the error it gets is the one whose message
    (or the fallback for an empty one) ends up in [error]. *)
Theorem X11_logged_error_is_shown (net : Network) (s : UIState) :
  let w := submit net s in
  (List.length (console_errors (trace w)) <= 1)%nat /\
  (trim (text s) = [] -> console_errors (trace w) = []) /\
  (forall err, In err (console_errors (trace w)) ->
     error (ui w) = Some (message err ||| fallback_message)).
Proof.
  intros w. subst w. submit_paths net s; cbn [ui trace];
    (split; [simpl; lia|]);
    (split; [intros He; apply truthy_false_iff in He; try congruence; reflexivity|]);
    intros e Hin; simpl in Hin;
    repeat (destruct Hin as [<-|Hin]; [reflexivity|]);
    contradiction.
Qed.

(** X12.  Switching the page and submitting do not interfere: the
    navigation buttons before or after a submission give the same state. *)
Theorem X12_page_switch_commutes (net : Network) (s : UIState) :
  run_handler onClickHome net (ui (submit net s))
    = ui (submit net (run_handler onClickHome net s)) /\
  run_handler onClickAbout net (ui (submit net s))
    = ui (submit net (run_handler onClickAbout net s)).
Proof.
  unfold run_handler, onClickHome, onClickAbout, setPage, emit. cbn [snd ui].
  split.
  - rewrite (submit_run net (apply_event s (call_setPage home))).
    rewrite (submit_run net s). cbn [ui text apply_event].
    submit_paths net s; reflexivity.
  - rewrite (submit_run net (apply_event s (call_setPage about))).
    rewrite (submit_run net s). cbn [ui text apply_event].
    submit_paths net s; reflexivity.
Qed.

(* ===================================================================== *)
(** ** Beyond the claims: the API client *)
(* ===================================================================== *)

(** X13.  A call of [analyzeJournalEntry] or of [getCopingSuggestion] calls
    [fetch] once, with the request for its argument, and calls nothing else:
    it leaves the UI state alone whether it returns or throws. *)
Theorem X13_client_one_fetch_no_state
    (net : Network) (t : jsstring) (b : CopingRequest) (w : World) :
  snd (analyzeJournalEntry t net w)
    = {| ui := ui w; trace := trace w ++ [call_fetch (predict_request t)] |} /\
  snd (getCopingSuggestion b net w)
    = {| ui := ui w;
         trace := trace w ++
           [call_fetch (coping_request (journal b) (cr_primary_emotion b)
                          (cr_stress_level b))] |}.
Proof.
  rewrite analyzeJournalEntry_run, getCopingSuggestion_run. split; reflexivity.
Qed.

(** X14.  The client returns a value only for an answer with a status in
    200-299, and the value is what [res.json()] gave: no error answer and no
    rejected [fetch] ever comes back as data. *)
Theorem X14_client_returns_only_2xx_json
    (net : Network) (t : jsstring) (b : CopingRequest) (w : World) :
  (forall data, fst (analyzeJournalEntry t net w) = Normal data ->
     exists res, predict_route net (predict_request t) = Normal res /\
                 N.le 200 (status res) /\ N.le (status res) 299 /\
                 res_json res = Normal data) /\
  (forall c, fst (getCopingSuggestion b net w) = Normal c ->
     exists res,
       coping_route net
         (coping_request (journal b) (cr_primary_emotion b) (cr_stress_level b))
         = Normal res /\
       N.le 200 (status res) /\ N.le (status res) 299 /\
       res_json res = Normal c).
Proof.
  rewrite analyzeJournalEntry_run, getCopingSuggestion_run. cbn [fst]. split.
  - intros data H. destruct (analyze_outcome_Normal_inv _ _ H) as [res [Hr [Hok Hj]]].
    exists res. unfold ok in Hok. apply andb_true_iff in Hok as [H1 H2].
    apply N.leb_le in H1, H2. auto.
  - intros c H. destruct (coping_outcome_Normal_inv _ _ H) as [res [Hr [Hok Hj]]].
    exists res. unfold ok in Hok. apply andb_true_iff in Hok as [H1 H2].
    apply N.leb_le in H1, H2. auto.
Qed.

(* ===================================================================== *)
(** ** Beyond the claims: request bodies *)
(* ===================================================================== *)

Section Quoting.

Import JSON Unquote.

Lemma hexValue_hexDigit (d : N) : d < 16 -> hexValue (hexDigit d) = Some d.
Proof.
  intros Hd. unfold hexValue, hexDigit.
  destruct (N.ltb d 10) eqn:H10.
  - apply N.ltb_lt in H10.
    replace (N.leb 48 (48 + d) && N.leb (48 + d) 57) with true.
    + f_equal. lia.
    + symmetry. apply andb_true_iff. split; apply N.leb_le; lia.
  - apply N.ltb_ge in H10.
    replace (N.leb 48 (87 + d) && N.leb (87 + d) 57) with false.
    + replace (N.leb 97 (87 + d) && N.leb (87 + d) 102) with true.
      * f_equal. lia.
      * symmetry. apply andb_true_iff. split; apply N.leb_le; lia.
    + symmetry. apply andb_false_iff. right. apply N.leb_gt. lia.
Qed.

(** Four hexadecimal digits of a 16-bit number give the number back. *)
Lemma hex_digits (c : N) :
  c < 65536 ->
  4096 * ((c / 4096) mod 16) + 256 * ((c / 256) mod 16)
  + 16 * ((c / 16) mod 16) + c mod 16 = c.
Proof.
  intros Hc.
  replace (c / 4096) with (c / 16 / 16 / 16) by (now rewrite !N.Div0.div_div).
  replace (c / 256) with (c / 16 / 16) by (now rewrite !N.Div0.div_div).
  pose proof (N.div_mod c 16 ltac:(discriminate)) as E1.
  pose proof (N.div_mod (c / 16) 16 ltac:(discriminate)) as E2.
  pose proof (N.div_mod (c / 16 / 16) 16 ltac:(discriminate)) as E3.
  pose proof (N.mod_lt c 16 ltac:(discriminate)).
  pose proof (N.mod_lt (c / 16) 16 ltac:(discriminate)).
  pose proof (N.mod_lt (c / 16 / 16) 16 ltac:(discriminate)).
  generalize dependent (c / 16 / 16 / 16). intros q3.
  generalize dependent (c / 16 / 16). intros q2.
  generalize dependent (c / 16). intros q1. intros.
  assert (Hq : q3 < 16).
  { generalize dependent (q2 mod 16). generalize dependent (q1 mod 16).
    generalize dependent (c mod 16). intros. lia. }
  rewrite (N.mod_small _ _ Hq).
  generalize dependent (q2 mod 16). generalize dependent (q1 mod 16).
  generalize dependent (c mod 16). intros. lia.
Qed.

Lemma readString_UnicodeEscape (c : char16) (tail : jsstring) :
  c < 65536 ->
  readString (UnicodeEscape c ++ tail) = push (Some c) (readString tail).
Proof.
  intros Hc. unfold UnicodeEscape. cbn [app readString].
  change (N.eqb 92 34) with false. change (N.eqb 92 92) with true.
  change (N.eqb 117 117) with true. cbv iota.
  unfold hex4.
  rewrite !hexValue_hexDigit by (apply N.mod_lt; discriminate).
  unfold char16 in *. now rewrite (hex_digits Hc).
Qed.

Lemma readString_raw (c : char16) (tail : jsstring) :
  N.eqb c 34 = false -> N.eqb c 92 = false ->
  readString (c :: tail) = push (Some c) (readString tail).
Proof. intros H34 H92. cbn [readString]. now rewrite H34, H92. Qed.

Lemma readString_quoteUnit (c : char16) (tail : jsstring) :
  readString (quoteUnit c ++ tail) = push (Some c) (readString tail).
Proof.
  unfold quoteUnit.
  repeat match goal with
  | |- context [if N.eqb c ?k then _ else _] =>
      let E := fresh "E" in
      destruct (N.eqb c k) eqn:E; [apply N.eqb_eq in E; subst c; reflexivity|]
  end.
  destruct (N.ltb c 32 || isLeadingSurrogate c || isTrailingSurrogate c) eqn:Hesc.
  - apply readString_UnicodeEscape.
    unfold isLeadingSurrogate, isTrailingSurrogate in Hesc.
    rewrite !orb_true_iff, !andb_true_iff, N.ltb_lt, !N.leb_le in Hesc.
    unfold char16 in *. lia.
  - now apply readString_raw.
Qed.

Lemma surrogate_is_raw (c : char16) :
  isLeadingSurrogate c = true \/ isTrailingSurrogate c = true ->
  N.eqb c 34 = false /\ N.eqb c 92 = false.
Proof.
  unfold isLeadingSurrogate, isTrailingSurrogate.
  rewrite !andb_true_iff, !N.leb_le, !N.eqb_neq. unfold char16 in *. lia.
Qed.

Lemma quoteUnits_cons2 (c d : char16) (s : jsstring) :
  quoteUnits (c :: d :: s)
  = if isLeadingSurrogate c && isTrailingSurrogate d
    then c :: d :: quoteUnits s
    else quoteUnit c ++ quoteUnits (d :: s).
Proof. reflexivity. Qed.

(** Reading a quoted string gives the string back, and stops at its quote. *)
Lemma readString_quoteUnits_pair (s : jsstring) :
  (forall rest, readString (quoteUnits s ++ 34 :: rest) = Some (s, rest)) /\
  (forall c rest, readString (quoteUnits (c :: s) ++ 34 :: rest) = Some (c :: s, rest)).
Proof.
  induction s as [|d s [IH0 IH1]].
  - split; [reflexivity|].
    intros c rest. cbn [quoteUnits]. now rewrite readString_quoteUnit.
  - split; [apply IH1|].
    intros c rest. rewrite quoteUnits_cons2.
    destruct (isLeadingSurrogate c && isTrailingSurrogate d) eqn:Hpair.
    + apply andb_true_iff in Hpair as [Hc Hd].
      destruct (surrogate_is_raw c (or_introl Hc)) as [Hc1 Hc2].
      destruct (surrogate_is_raw d (or_intror Hd)) as [Hd1 Hd2].
      cbn [app]. rewrite (@readString_raw c _ Hc1 Hc2), (@readString_raw d _ Hd1 Hd2).
      now rewrite IH0.
    + rewrite <- app_assoc, readString_quoteUnit. now rewrite IH1.
Qed.

Lemma readString_quoteUnits (s rest : jsstring) :
  readString (quoteUnits s ++ 34 :: rest) = Some (s, rest).
Proof. apply readString_quoteUnits_pair. Qed.

(** Two quoted strings that agree up to and after the closing quote are the
    same string. *)
Lemma quoteUnits_inj (a a' r r' : jsstring) :
  quoteUnits a ++ 34 :: r = quoteUnits a' ++ 34 :: r' -> a = a' /\ r = r'.
Proof.
  intros H. apply (f_equal readString) in H.
  rewrite !readString_quoteUnits in H. injection H as -> ->. auto.
Qed.

Lemma body_predict_request (t : jsstring) :
  body (predict_request t)
  = ([123] ++ QuoteJSONString (lit "text") ++ [58; 34]) ++ quoteUnits t ++ [34; 125].
Proof.
  unfold predict_request, post_json. cbn [body stringify map fst snd joinComma].
  unfold QuoteJSONString. now rewrite <- !app_assoc.
Qed.

Lemma body_coping_request (j e l : jsstring) :
  body (coping_request j e l)
  = ([123] ++ QuoteJSONString (lit "journal") ++ [58; 34]) ++ quoteUnits j ++
    34 :: ([44] ++ QuoteJSONString (lit "primary_emotion") ++ [58; 34]) ++ quoteUnits e ++
    34 :: ([44] ++ QuoteJSONString (lit "stress_level") ++ [58; 34]) ++ quoteUnits l ++
    [34; 125].
Proof.
  unfold coping_request, post_json. cbn [body stringify map fst snd joinComma].
  unfold QuoteJSONString. rewrite <- !app_assoc. reflexivity.
Qed.

End Quoting.

(** X15.  The body of the request to /predict determines the journal text:
    two texts that differ in anything, white space, quotes, control
    characters or unpaired surrogates included, give different bodies. *)
Theorem X15_predict_body_determines_text (t1 t2 : jsstring) :
  body (predict_request t1) = body (predict_request t2) -> t1 = t2.
Proof.
  rewrite !body_predict_request. intros H.
  apply app_inv_head in H. change [34; 125] with (34 :: [125]) in H.
  now apply quoteUnits_inj in H.
Qed.

Lemma X15_witness : lit "a b" = [97; 32; 98].
Proof. exact (@X15_predict_body_determines_text (lit "a b") [97; 32; 98] eq_refl). Defined.

(** X16.  The body of the request to /coping determines its three fields:
    equal bodies have the same [journal], the same [primary_emotion] and the
    same [stress_level], so no text can pass from one field into another. *)
Theorem X16_coping_body_determines_fields (j e l j' e' l' : jsstring) :
  body (coping_request j e l) = body (coping_request j' e' l') ->
  j = j' /\ e = e' /\ l = l'.
Proof.
  rewrite !body_coping_request. intros H.
  apply app_inv_head in H.
  apply quoteUnits_inj in H as [-> H].
  apply app_inv_head in H.
  apply quoteUnits_inj in H as [-> H].
  apply app_inv_head in H. change [34; 125] with (34 :: [125]) in H.
  apply quoteUnits_inj in H as [-> _]. auto.
Qed.

Lemma X16_witness :
  lit "x" = [120] /\ lit "joy" = [106; 111; 121] /\ lit "low" = [108; 111; 119].
Proof.
  exact (@X16_coping_body_determines_fields
           (lit "x") (lit "joy") (lit "low") [120] [106; 111; 121] [108; 111; 119]
           eq_refl).
Defined.

(* ===================================================================== *)
(** ** Beyond the claims: the view *)
(* ===================================================================== *)

Section View.

Variable stringify2 : AnalyzeResponse -> jsstring.

(** Every case of the conditions [App] renders by. *)
Ltac view_cases s :=
  unfold shown, App;
  destruct (page s); destruct (loading s);
  (destruct (error s) as [?e|]; [destruct (truthy _) eqn:?He|]);
  destruct (result s) as [?r|]; destruct (truthy (copingText s)) eqn:?Hcoping.

Lemma shown_error (s : UIState) :
  shown "error" (App stringify2 s) =
  match page s, error s with
  | home, Some e => if truthy e then [e] else []
  | _, _ => []
  end.
Proof. view_cases s; rewrite ?He; cbn; rewrite ?app_nil_r; reflexivity. Qed.

Lemma shown_value (s : UIState) :
  shown "value" (App stringify2 s) =
  match page s, result s with
  | home, Some r => [primary_emotion r; stress_level r]
  | _, _ => []
  end.
Proof. view_cases s; cbn; rewrite ?app_nil_r; reflexivity. Qed.

Lemma shown_coping_box (s : UIState) :
  shown "coping-box" (App stringify2 s) =
  match page s, result s with
  | home, Some r =>
      if truthy (copingText s) then [lit "Coping Suggestions:" +++ copingText s] else []
  | _, _ => []
  end.
Proof. view_cases s; cbn; rewrite ?app_nil_r; reflexivity. Qed.

Lemma analyze_button (s : UIState) :
  byClass (lit "analyze-button") (App stringify2 s) =
  match page s with
  | home =>
      [tag "button"
         [cls "analyze-button"; attr_onClick (handleAnalyze (text s));
          attr_disabled (loading s)]
         [Text (if loading s then lit "Analyzing..." else lit "Analyze Emotions")]]
  | about => []
  end.
Proof. view_cases s; cbn; rewrite ?app_nil_r; reflexivity. Qed.


Lemma journal_input (s : UIState) :
  byTag (lit "textarea") (App stringify2 s) =
  match page s with
  | home =>
      [tag "textarea"
         [cls "journal-input";
          attr_placeholder
            (lit "Write about your day, how you're feeling, or anything on your mind...");
          attr_value (text s); attr_onChange onChange; attr_rows 8]
         []]
  | about => []
  end.
Proof. view_cases s; cbn; rewrite ?app_nil_r; reflexivity. Qed.

Lemma results_panel_hidden (s : UIState) :
  result s = None -> byClass (lit "results") (App stringify2 s) = [].
Proof. intros H. view_cases s; try discriminate; reflexivity. Qed.

Lemma holds_at_fetches_split (P : UIState -> bool) (evs : list Event) :
  forall s, holds_at_fetches P s evs = true ->
  forall pre req post, evs = pre ++ call_fetch req :: post ->
  P (replay s pre) = true.
Proof.
  induction evs as [|e evs IH]; intros s H pre req post Heq.
  - destruct pre; discriminate.
  - destruct pre as [|e' pre].
    + simpl in Heq. injection Heq as -> _. simpl in H.
      now apply andb_true_iff in H.
    + simpl in Heq. injection Heq as <- Heq.
      unfold replay. simpl fold_left.
      apply (IH (apply_event s e)) with (req := req) (post := post); [|exact Heq].
      destruct e; simpl in H; try exact H.
      apply andb_true_iff in H as [_ H]. exact H.
Qed.

(** X17.  On the home page, after a submission in which both calls
    succeeded, the screen shows the primary emotion and the stress level of
    the answer as they came, the coping text under its heading unless it is
    empty, no error, and the Analyze button enabled with its idle label. *)
Theorem X17_success_on_screen
    (net : Network) (s : UIState)
    (pres : Response AnalyzeResponse) (data : AnalyzeResponse)
    (cres : Response CopingResponse) (coping : CopingResponse) :
  page s = home ->
  trim (text s) <> [] ->
  predict_route net (predict_request (text s)) = Normal pres ->
  ok pres = true ->
  res_json pres = Normal data ->
  coping_route net
    (coping_request (text s) (primary_emotion data) (stress_level data)) = Normal cres ->
  ok cres = true ->
  res_json cres = Normal coping ->
  let view := App stringify2 (ui (submit net s)) in
  shown "value" view = [primary_emotion data; stress_level data] /\
  shown "coping-box" view =
    (if truthy (coping_text coping)
     then [lit "Coping Suggestions:" +++ coping_text coping] else []) /\
  shown "error" view = [] /\
  exists button,
    byClass (lit "analyze-button") view = [button] /\
    disabled_of (attrs_of button) = false /\
    textContent button = lit "Analyze Emotions".
Proof.
  intros Hhome Hne Hr Hok Hj Hc Hcok Hcj view. subst view.
  apply truthy_true_iff in Hne.
  assert (Ha : analyze_outcome net (text s) = Normal data).
  { now rewrite (analyze_outcome_ok _ _ Hr Hok). }
  assert (Hco : coping_outcome net (coping_body (text s) data) = Normal coping).
  { now rewrite (coping_outcome_ok net (coping_body (text s) data) Hc Hcok). }
  rewrite submit_run, (events_success _ _ Hne Ha Hco). cbn [ui].
  rewrite shown_value, shown_coping_box, shown_error, analyze_button.
  unfold replay. cbn [fold_left apply_event page result error copingText loading text].
  rewrite Hhome. repeat split.
  eexists. split; [reflexivity|]. split; reflexivity.
Qed.

(** X18.  On the home page, a submission of a blank text puts the
    validation message in the error box and takes the results off the
    screen, whatever was shown before. *)
Theorem X18_validation_on_screen (net : Network) (s : UIState) :
  page s = home ->
  trim (text s) = [] ->
  let view := App stringify2 (ui (submit net s)) in
  shown "error" view = [lit "Please write a short journal entry first."] /\
  byClass (lit "results") view = [] /\
  shown "value" view = [] /\
  shown "coping-box" view = [].
Proof.
  intros Hhome He view. subst view. apply truthy_false_iff in He.
  rewrite submit_run, (events_invalid net _ He). cbn [ui].
  rewrite shown_value, shown_coping_box, shown_error.
  rewrite results_panel_hidden by reflexivity.
  unfold replay. cbn [fold_left apply_event page result error copingText loading text].
  rewrite Hhome. repeat split.
Qed.

(** X19.  On the home page, what a submission leaves in the state is on the
    screen: the error box shows [error] whenever it is set (it is never
    empty), and the coping box shows [copingText] whenever it is not empty
    (a result is always there to hold it). *)
Theorem X19_state_on_screen (net : Network) (s : UIState) :
  page s = home ->
  let u := ui (submit net s) in
  let view := App stringify2 u in
  shown "error" view = match error u with Some e => [e] | None => [] end /\
  shown "coping-box" view =
    (if truthy (copingText u)
     then [lit "Coping Suggestions:" +++ copingText u] else []).
Proof.
  intros Hhome u view. subst view u.
  rewrite shown_coping_box, shown_error.
  assert (Hpage : page (ui (submit net s)) = home).
  { rewrite <- Hhome, submit_run. submit_paths net s; reflexivity. }
  rewrite Hpage. rewrite submit_run. cbn [ui].
  submit_paths net s; unfold replay;
    cbn [fold_left app apply_event page result error copingText loading text];
    (split; [|try reflexivity]);
    try reflexivity;
    try (destruct (truthy (_ ||| _)) eqn:Hm; [reflexivity|];
         apply truthy_false_iff in Hm;
         now apply shown_message_not_empty in Hm).
Qed.

(** X20.  On the home page, take any call of [fetch] of a submission and
    apply to the starting state the updates the handler has issued before
    that call.  [App] renders the state so obtained with the Analyze button
    disabled and reading "Analyzing...", and with no error box.  This is the
    state React has been asked for when the request leaves, not what is on
    the screen at that instant: React renders it when it next applies the
    queued updates. *)
Theorem X20_pending_view_at_fetch
    (net : Network) (s : UIState) (pre post : list Event) (req : Request) :
  page s = home ->
  trace (submit net s) = pre ++ call_fetch req :: post ->
  let view := App stringify2 (replay s pre) in
  shown "error" view = [] /\
  exists button,
    byClass (lit "analyze-button") view = [button] /\
    disabled_of (attrs_of button) = true /\
    textContent button = lit "Analyzing...".
Proof.
  intros Hhome Hsplit view. subst view.
  set (P := fun u : UIState =>
              loading u && Page_eqb (page u) (page s)
              && match error u with None => true | Some _ => false end).
  assert (HP : P (replay s pre) = true).
  { apply (@holds_at_fetches_split P (trace (submit net s)) s) with (req := req) (post := post);
      [|exact Hsplit].
    rewrite submit_run. cbn [trace]. subst P.
    submit_paths net s; cbn; rewrite ?Hhome; reflexivity. }
  subst P. cbv beta in HP.
  apply andb_true_iff in HP as [HP Herr]. apply andb_true_iff in HP as [Hload Hpage].
  rewrite Hhome in Hpage.
  rewrite shown_error, analyze_button.
  destruct (page (replay s pre)); [|discriminate].
  destruct (error (replay s pre)); [discriminate|].
  rewrite Hload. split; [reflexivity|].
  eexists. split; [reflexivity|]. split; reflexivity.
Qed.

(** X21.  The About page shows nothing of the state: any two states on that
    page give the same tree, whatever text, flags, error and results they
    hold and however the raw output is printed. *)
Theorem X21_about_page_static
    (stringify2' : AnalyzeResponse -> jsstring) (s s' : UIState) :
  page s = about -> page s' = about ->
  App stringify2 s = App stringify2' s'.
Proof. intros H H'. unfold App. rewrite H, H'. reflexivity. Qed.

(** X22.  The navigation bar has two buttons, Home and About; the handler of
    each changes [page] and nothing else, and the button of the current page
    is the one marked active. *)
Theorem X22_navigation (net : Network) (s : UIState) :
  let view := App stringify2 s in
  map (fun b => (textContent b,
                 option_map (fun h => run_handler h net s) (onClick_of (attrs_of b))))
      (flat_map (byTag (lit "button")) (byTag (lit "nav") view))
  = [(lit "Home", Some (apply_event s (call_setPage home)));
     (lit "About", Some (apply_event s (call_setPage about)))] /\
  shown "nav-link nav-link-active" view
  = [match page s with home => lit "Home" | about => lit "About" end] /\
  shown "nav-link " view
  = [match page s with home => lit "About" | about => lit "Home" end].
Proof.
  intros view. subst view. view_cases s; repeat split.
Qed.

(** X23.  On the home page the text box shows [text]; typing [v] into it
    changes [text] to [v] and nothing else, and from then on the box shows
    [v] and the Analyze button submits [v]. *)
Theorem X23_typing (net : Network) (s : UIState) (v : jsstring) :
  page s = home ->
  exists area h,
    byTag (lit "textarea") (App stringify2 s) = [area] /\
    value_of (attrs_of area) = Some (text s) /\
    onChange_of (attrs_of area) = Some h /\
    let s' := run_handler (h v) net s in
    s' = apply_event s (call_setText v) /\
    map (fun a => value_of (attrs_of a)) (byTag (lit "textarea") (App stringify2 s'))
      = [Some v] /\
    map (fun b => onClick_of (attrs_of b))
        (byClass (lit "analyze-button") (App stringify2 s'))
      = [Some (handleAnalyze v)].
Proof.
  intros Hhome. eexists. eexists.
  split; [rewrite journal_input, Hhome; reflexivity|].
  split; [reflexivity|]. split; [reflexivity|]. cbv zeta.
  split; [reflexivity|].
  change (run_handler (onChange v) net s) with (apply_event s (call_setText v)).
  rewrite journal_input, analyze_button. cbn [apply_event page text]. rewrite Hhome.
  split; reflexivity.
Qed.

End View.

Lemma X17_witness :
  shown "value" (App ViewSamples.raw (ui (submit Samples.net_ok ViewSamples.typed_home)))
  = [lit "anxiety"; lit "high"] /\
  shown "coping-box" (App ViewSamples.raw (ui (submit Samples.net_ok ViewSamples.typed_home)))
  = [lit "Coping Suggestions:Try a short breathing exercise."].
Proof.
  assert (Hne : trim (text ViewSamples.typed_home) <> []) by (vm_compute; discriminate).
  destruct (@X17_success_on_screen ViewSamples.raw Samples.net_ok ViewSamples.typed_home
              Samples.predict_200 Samples.data Samples.coping_200 Samples.coping
              eq_refl Hne eq_refl eq_refl eq_refl eq_refl eq_refl eq_refl)
    as [Hvalue [Hbox _]].
  split; [exact Hvalue | exact Hbox].
Defined.

Lemma X18_witness :
  shown "error" (App ViewSamples.raw (ui (submit Samples.net_ok Samples.blank)))
  = [lit "Please write a short journal entry first."] /\
  shown "value" (App ViewSamples.raw (ui (submit Samples.net_ok Samples.blank))) = [].
Proof.
  destruct (@X18_validation_on_screen ViewSamples.raw Samples.net_ok Samples.blank
              eq_refl eq_refl)
    as [Herr [_ [Hvalue _]]].
  split; [exact Herr | exact Hvalue].
Defined.

Lemma X19_witness :
  shown "error"
    (App ViewSamples.raw (ui (submit Faults.net_aborted ViewSamples.typed_home)))
  = [lit "Something went wrong. Please try again."].
Proof.
  exact (proj1 (@X19_state_on_screen ViewSamples.raw Faults.net_aborted
                  ViewSamples.typed_home eq_refl)).
Defined.

Lemma X20_witness :
  shown "error"
    (App ViewSamples.raw
       (replay ViewSamples.typed_home
          [call_setError None; call_setResult None; call_setCopingText (lit "");
           call_setLoading true])) = [].
Proof.
  exact (proj1 (@X20_pending_view_at_fetch ViewSamples.raw Samples.net_ok ViewSamples.typed_home
                  [call_setError None; call_setResult None; call_setCopingText (lit "");
                   call_setLoading true]
                  [call_setResult (Some Samples.data);
                   call_fetch (coping_request (text ViewSamples.typed_home)
                                 (lit "anxiety") (lit "high"));
                   call_setCopingText (lit "Try a short breathing exercise.");
                   call_setLoading false]
                  (predict_request (text ViewSamples.typed_home))
                  eq_refl eq_refl)).
Defined.

Lemma X21_witness :
  App ViewSamples.raw Samples.typed
  = App ViewSamples.silent (apply_event initialState (call_setPage about)).
Proof.
  exact (@X21_about_page_static ViewSamples.raw ViewSamples.silent Samples.typed
           (apply_event initialState (call_setPage about)) eq_refl eq_refl).
Defined.

Lemma X23_witness :
  exists area h,
    byTag (lit "textarea") (App ViewSamples.raw ViewSamples.typed_home) = [area] /\
    value_of (attrs_of area) = Some (lit "  I feel overwhelmed today ") /\
    onChange_of (attrs_of area) = Some h /\
    run_handler (h (lit "Better now")) Samples.net_ok ViewSamples.typed_home
    = apply_event ViewSamples.typed_home (call_setText (lit "Better now")).
Proof.
  destruct (@X23_typing ViewSamples.raw Samples.net_ok ViewSamples.typed_home
              (lit "Better now") eq_refl)
    as [area [h [Harea [Hvalue [Hh [Hrun _]]]]]].
  exists area, h. repeat split; assumption.
Defined.

(* ===================================================================== *)
(** ** Beyond the claims: the two versions of the handler *)
(* ===================================================================== *)

Lemma AppV1_submit_run (net : Network) (s : UIState) :
  AppV1.submit net s =
  {| ui := replay s (AppV1.submit_events net (text s));
     trace := AppV1.submit_events net (text s) |}.
Proof.
  unfold AppV1.submit, AppV1.handleAnalyze, AppV1.submit_events, try_catch_finally, bind.
  unfold setError, setResult, setLoading, console_error.
  rewrite !emit_run.
  destruct (truthy (trim (text s))); cbn [negb].
  - rewrite !emit_run, analyzeJournalEntry_run.
    destruct (analyze_outcome net (text s)) as [data|err];
      rewrite !emit_run; cbn [snd]; rewrite !log_log; reflexivity.
  - rewrite !emit_run. unfold ret. cbn [snd]. rewrite !log_log. reflexivity.
Qed.

(** X24.  The coping step was added without changing the rest: against the
    earlier [handleAnalyze], on the same state and network, the later one
    leaves the same [text], [loading], [page] and [result], reports every
    error the earlier one reports, and sends the same first request; the
    earlier one sends no other request and never writes [copingText]. *)
Theorem X24_coping_step_extends_v1 (net : Network) (s : UIState) :
  let w1 := AppV1.submit net s in
  let w2 := submit net s in
  text (ui w1) = text (ui w2) /\
  loading (ui w1) = loading (ui w2) /\
  page (ui w1) = page (ui w2) /\
  result (ui w1) = result (ui w2) /\
  (forall msg, error (ui w1) = Some msg -> error (ui w2) = Some msg) /\
  fetches (trace w1) = firstn 1 (fetches (trace w2)) /\
  copingText (ui w1) = copingText s.
Proof.
  intros w1 w2. subst w1 w2. rewrite AppV1_submit_run. unfold AppV1.submit_events.
  submit_paths net s; cbn [ui trace]; unfold replay;
    cbn [fold_left app apply_event text loading page result error copingText
         fetches firstn];
    repeat split; intros; try discriminate; assumption.
Qed.
